(** * Typed parameter handles and the physics-engine parameter interface

    A shallow embedding of [sdf::Param] (the type-erased parameter handle with
    its typed [Get] accessors and the optional process-wide registry) and of
    the string-keyed parameter interface of [gazebo::physics::PhysicsEngine]
    ([SetParam], [GetParam], [OnPhysicsMsg]).

    Conventions.
    - C++ [int] and [unsigned int] values are integers in [Z]; [char] is
      [ascii]; [std::string] is [string]; [std::vector] is [list].
    - An out-parameter [T &_value] is an argument holding the caller's
      current value and a component of the result holding the value after
      the call.
    - A thrown and caught exception is an [option]: [None] is the throw.
    - Behaviour the C++ standard leaves undefined (reading past the end of a
      vector, using an object through a pointer to the wrong [ParamT<T>]) is
      an explicit result, never a value. *)

From stdpp Require Import base option list strings gmap.
From Stdlib Require Import ZArith Ascii String.

Local Open Scope string_scope.
Local Open Scope list_scope.

(** ** Numbers and conversions taken from C++ and Boost *)

(** The floating-point types and the Boost conversions are not defined by
    the repository: the development is parametric in them.
    [lexical_cast_double s] is [boost::lexical_cast<double>] applied to the
    C string [s]; [None] stands for [boost::bad_lexical_cast].
    [double_default] and [float_default] are the values a protobuf accessor
    returns for an absent optional field. *)
Class Numeric := {
  double : Type;
  float : Type;
  double_default : double;
  float_default : float;
  lexical_cast_double : string -> option double;
  lexical_cast_int : string -> option Z
}.

(** ** Strings *)

(** [std::string::c_str] read as a C string: the characters before the first
    NUL. *)
Fixpoint c_str (s : string) : string :=
  match s with
  | EmptyString => EmptyString
  | String c r => if Ascii.eqb c zero then EmptyString else String c (c_str r)
  end.

(** [boost::split(pieces, s, boost::is_any_of(" "))] with the default
    [token_compress_off]: every space ends a piece, so [n] spaces give
    [n + 1] pieces and adjacent spaces give empty pieces. *)
Fixpoint split (s : string) : list string :=
  match s with
  | EmptyString => [EmptyString]
  | String c r =>
      if Ascii.eqb c " "%char then EmptyString :: split r
      else match split r with
           | piece :: pieces => String c piece :: pieces
           | [] => [String c EmptyString]
           end
  end.

(** The pieces that are not empty: the ones the loop of a vector accessor
    converts. *)
Definition retained (pieces : list string) : list string :=
  List.filter (fun piece => negb (String.eqb piece EmptyString)) pieces.

Module Param.

(** *** Results of a [Get] *)

(** What [Get] writes to [sdferr] before it returns false. *)
Inductive Diag :=
| NotOfType (k : string) (wanted : string)
    (* "Parameter [k] is not a wanted" *)
| IsOfType (k : string) (actual : string) (wanted : string)
    (* "Parameter [k] is a [actual], attempting to get as a wanted." *)
| WrongPieceCount (arity : nat)
    (* "string does not have arity pieces to parse into ..." *)
| BadNumber (piece : string) (i : nat)
    (* "value [piece] is not a valid double for ...[i]" *).

Inductive Undefined :=
| BadDowncast
    (* [((ParamT<T>* )this)->GetValue()] on an object that is no [ParamT<T>] *)
| OutOfRange (i : nat)
    (* [elements[i]] with [i >= elements.size()] *).

Inductive Outcome (A : Type) :=
| GetTrue (_value : A)               (* returned true; [_value] assigned *)
| GetFalse (_value : A) (err : Diag) (* returned false after reporting *)
| Undef (u : Undefined).
Arguments GetTrue {A} _.
Arguments GetFalse {A} _ _.
Arguments Undef {A} _.

(** The loop over the pieces: an empty piece is passed over, any other is
    converted and pushed on [elements]; the first piece that does not
    convert ends the loop with the piece and its index. *)
Fixpoint parse_pieces {A : Type} (cast : string -> option A)
    (pieces : list string) (i : nat) (elements : list A)
  : (string * nat) + list A :=
  match pieces with
  | [] => inr elements
  | piece :: rest =>
      if String.eqb piece EmptyString then parse_pieces cast rest (S i) elements
      else match cast (c_str piece) with
           | Some e => parse_pieces cast rest (S i) (elements ++ [e])
           | None => inl (piece, i)
           end
  end.

(** [elements[i]]. *)
Definition at_index {A B : Type} (elements : list A) (i : nat)
    (k : A -> Outcome B) : Outcome B :=
  match elements !! i with
  | Some e => k e
  | None => Undef (OutOfRange i)
  end.

Section Handles.
Context `{Numeric}.

(** *** Value classes *)

Record Vector3 := { v3_x : double; v3_y : double; v3_z : double }.
Record Vector2i := { v2i_x : Z; v2i_y : Z }.
Record Vector2d := { v2d_x : double; v2d_y : double }.
Record Quaternion :=
  { q_w : double; q_x : double; q_y : double; q_z : double }.
Record Pose := { pose_pos : Vector3; pose_rot : Quaternion }.
Record Color :=
  { col_r : float; col_g : float; col_b : float; col_a : float }.
Record Time := { t_sec : Z; t_nsec : Z }.

(** The [value] member of a [ParamT<T>], for each [T] that has a [Get]. *)
Inductive Payload :=
| VBool (b : bool)
| VInt (i : Z)
| VUInt (u : Z)
| VFloat (f : float)
| VDouble (d : double)
| VChar (c : ascii)
| VStr (s : string)
| VVector3 (v : Vector3)
| VVector2i (v : Vector2i)
| VVector2d (v : Vector2d)
| VQuaternion (q : Quaternion)
| VPose (p : Pose)
| VColor (c : Color)
| VTime (t : Time).

(** The members of the base class [Param]. *)
Record Param := {
  key : string;
  required : bool;
  set : bool;
  typeName : string;
  description : string
}.

(** A complete object: the [Param] base and the [value] of the [ParamT<T>]
    it is part of. *)
Record ParamObj := { base : Param; value : Payload }.

(** *** The registry [Param::params] *)

(** A [Param*]. *)
Definition ptr := N.

(** [std::vector<Param*> *Param::params]: [None] is the null pointer. *)
Definition Registry := option (list ptr).

(** [Param::Param(Param *_newParam)]: the members as initialised, and the
    registry after the constructor. *)
Definition Param_ctor (_newParam : ptr) (params : Registry)
  : Param * Registry :=
  ({| key := EmptyString; required := false; set := false;
      typeName := EmptyString; description := EmptyString |},
   match params with
   | Some ps => Some (ps ++ [_newParam])
   | None => None
   end).

(** Constructing handles one after the other, first to last. *)
Fixpoint construct_all (news : list ptr) (params : Registry) : Registry :=
  match news with
  | [] => params
  | p :: rest => construct_all rest (snd (Param_ctor p params))
  end.

(** *** Type-tag predicates *)

Definition GetTypeName (p : Param) : string := typeName p.

Definition IsBool (p : Param) : bool := String.eqb (GetTypeName p) "bool".
Definition IsInt (p : Param) : bool := String.eqb (GetTypeName p) "int".
Definition IsUInt (p : Param) : bool :=
  String.eqb (GetTypeName p) "unsigned int".
Definition IsFloat (p : Param) : bool := String.eqb (GetTypeName p) "float".
Definition IsDouble (p : Param) : bool :=
  String.eqb (GetTypeName p) "double".
Definition IsChar (p : Param) : bool := String.eqb (GetTypeName p) "char".
Definition IsStr (p : Param) : bool := String.eqb (GetTypeName p) "string".
Definition IsVector3 (p : Param) : bool :=
  String.eqb (GetTypeName p) "vector3".
Definition IsVector2i (p : Param) : bool :=
  String.eqb (GetTypeName p) "vector2i".
Definition IsVector2d (p : Param) : bool :=
  String.eqb (GetTypeName p) "vector2d".
Definition IsQuaternion (p : Param) : bool :=
  String.eqb (GetTypeName p) "quaternion".
Definition IsPose (p : Param) : bool := String.eqb (GetTypeName p) "pose".
Definition IsColor (p : Param) : bool := String.eqb (GetTypeName p) "color".
Definition IsTime (p : Param) : bool := String.eqb (GetTypeName p) "time".

(** *** The string form *)

(** The stream output used by [ParamT<T>::GetAsString] for the kinds other
    than [std::string] is not part of the source. *)
Variable lexical_cast_string : Payload -> string.

(** Modelled from the spec: [ParamT<T>::GetAsString] is declared in
    Param.hh, which is not among the sources. It gives "the handle's
    current string form", the canonical string of the stored value; for a
    [ParamT<std::string>] that is the stored string itself. *)
Definition GetAsString (p : ParamObj) : string :=
  match value p with
  | VStr s => s
  | v => lexical_cast_string v
  end.

(** *** Scalar [Get]s *)

Definition Get_bool (p : ParamObj) (_value : bool) : Outcome bool :=
  if IsBool (base p) then
    match value p with VBool b => GetTrue b | _ => Undef BadDowncast end
  else GetFalse _value (NotOfType (key (base p)) "bool").

Definition Get_double (p : ParamObj) (_value : double) : Outcome double :=
  if IsDouble (base p) then
    match value p with VDouble d => GetTrue d | _ => Undef BadDowncast end
  else GetFalse _value
       (IsOfType (key (base p)) (typeName (base p)) "double").

Definition Get_float (p : ParamObj) (_value : float) : Outcome float :=
  if IsFloat (base p) then
    match value p with VFloat f => GetTrue f | _ => Undef BadDowncast end
  else GetFalse _value (NotOfType (key (base p)) "float").

Definition Get_Color (p : ParamObj) (_value : Color) : Outcome Color :=
  if IsColor (base p) then
    match value p with VColor c => GetTrue c | _ => Undef BadDowncast end
  else GetFalse _value (NotOfType (key (base p)) "color").

Definition Get_Time (p : ParamObj) (_value : Time) : Outcome Time :=
  if IsTime (base p) then
    match value p with VTime t => GetTrue t | _ => Undef BadDowncast end
  else GetFalse _value (NotOfType (key (base p)) "time").

Definition Get_Pose (p : ParamObj) (_value : Pose) : Outcome Pose :=
  if IsPose (base p) then
    match value p with VPose q => GetTrue q | _ => Undef BadDowncast end
  else GetFalse _value (NotOfType (key (base p)) "pose").

Definition Get_int (p : ParamObj) (_value : Z) : Outcome Z :=
  if IsInt (base p) then
    match value p with VInt i => GetTrue i | _ => Undef BadDowncast end
  else GetFalse _value (NotOfType (key (base p)) "int").

Definition Get_uint (p : ParamObj) (_value : Z) : Outcome Z :=
  if IsUInt (base p) then
    match value p with VUInt u => GetTrue u | _ => Undef BadDowncast end
  else GetFalse _value (NotOfType (key (base p)) "unsigned int").

(** The message of the [char] accessor says "unsigned int" in the source. *)
Definition Get_char (p : ParamObj) (_value : ascii) : Outcome ascii :=
  if IsChar (base p) then
    match value p with VChar c => GetTrue c | _ => Undef BadDowncast end
  else GetFalse _value (NotOfType (key (base p)) "unsigned int").

Definition Get_string (p : ParamObj) (_value : string) : Outcome string :=
  if IsStr (base p) then
    match value p with VStr s => GetTrue s | _ => Undef BadDowncast end
  else GetFalse _value (NotOfType (key (base p)) "string").

Definition Get_Quaternion (p : ParamObj) (_value : Quaternion)
  : Outcome Quaternion :=
  if IsQuaternion (base p) then
    match value p with
    | VQuaternion q => GetTrue q
    | _ => Undef BadDowncast
    end
  else GetFalse _value (NotOfType (key (base p)) "quaternion").

(** *** Vector [Get]s *)

Definition Get_Vector3 (p : ParamObj) (_value : Vector3)
  : Outcome Vector3 :=
  if IsVector3 (base p) then
    match value p with VVector3 v => GetTrue v | _ => Undef BadDowncast end
  else
    let val_str := GetAsString p in
    let pieces := split val_str in
    if negb (List.length pieces =? 3)%nat then
      GetFalse _value (WrongPieceCount 3)
    else
      match parse_pieces lexical_cast_double pieces 0 [] with
      | inl (piece, i) => GetFalse _value (BadNumber piece i)
      | inr elements =>
          at_index elements 0 (fun x =>
          at_index elements 1 (fun y =>
          at_index elements 2 (fun z =>
          GetTrue {| v3_x := x; v3_y := y; v3_z := z |})))
      end.

Definition Get_Vector2i (p : ParamObj) (_value : Vector2i)
  : Outcome Vector2i :=
  if IsVector2i (base p) then
    match value p with VVector2i v => GetTrue v | _ => Undef BadDowncast end
  else
    let val_str := GetAsString p in
    let pieces := split val_str in
    if negb (List.length pieces =? 2)%nat then
      GetFalse _value (WrongPieceCount 2)
    else
      match parse_pieces lexical_cast_int pieces 0 [] with
      | inl (piece, i) => GetFalse _value (BadNumber piece i)
      | inr elements =>
          at_index elements 0 (fun x =>
          at_index elements 1 (fun y =>
          GetTrue {| v2i_x := x; v2i_y := y |}))
      end.

Definition Get_Vector2d (p : ParamObj) (_value : Vector2d)
  : Outcome Vector2d :=
  if IsVector2d (base p) then
    match value p with VVector2d v => GetTrue v | _ => Undef BadDowncast end
  else
    let val_str := GetAsString p in
    let pieces := split val_str in
    if negb (List.length pieces =? 2)%nat then
      GetFalse _value (WrongPieceCount 2)
    else
      match parse_pieces lexical_cast_double pieces 0 [] with
      | inl (piece, i) => GetFalse _value (BadNumber piece i)
      | inr elements =>
          at_index elements 0 (fun x =>
          at_index elements 1 (fun y =>
          GetTrue {| v2d_x := x; v2d_y := y |}))
      end.

(** The contract of an accessor that checks the tag and nothing else:
    with another tag it returns false and leaves [_value] as it was; with
    its own tag, on an object that is the [ParamT<T>] the tag names, it
    returns true and assigns the stored value. *)
Definition tag_checked {A : Type} (Is : Param -> bool)
    (inject : A -> Payload) (Get : ParamObj -> A -> Outcome A) : Prop :=
  forall (p : ParamObj) (_value : A),
    (Is (base p) = false ->
     exists err, Get p _value = GetFalse _value err) /\
    (forall v, Is (base p) = true -> value p = inject v ->
               Get p _value = GetTrue v).

(** Modelled from the spec: the constructor of [ParamT<T>] is declared in
    Param.hh, which is not among the sources. "A handle constructed as
    string with value s" carries the tag "string" and the value [s]. *)
Definition ParamT_string (k s : string) : ParamObj :=
  {| base := {| key := k; required := false; set := false;
                typeName := "string"; description := EmptyString |};
     value := VStr s |}.

(** Modelled from the spec: as [ParamT_string], "a handle constructed as
    double". *)
Definition ParamT_double (k : string) (d : double) : ParamObj :=
  {| base := {| key := k; required := false; set := false;
                typeName := "double"; description := EmptyString |};
     value := VDouble d |}.

(** *** Observations used in the statements *)

(** The call returned true. *)
Definition returned_true {A : Type} (o : Outcome A) : bool :=
  match o with GetTrue _ => true | _ => false end.

(** How many of the answers are true. *)
Definition how_many (answers : list bool) : nat :=
  List.length (List.filter (fun b : bool => b) answers).

(** The number of spaces of a string. *)
Fixpoint count_spaces (s : string) : nat :=
  match s with
  | EmptyString => 0
  | String c r =>
      if Ascii.eqb c " "%char then S (count_spaces r) else count_spaces r
  end.

(** Pieces put together again, a space between two neighbours. *)
Fixpoint join (pieces : list string) : string :=
  match pieces with
  | [] => EmptyString
  | piece :: rest =>
      match rest with
      | [] => piece
      | _ => String.append piece (String " "%char (join rest))
      end
  end.

(** A piece the loop of a vector accessor gets past: an empty one, or one
    that converts. *)
Definition passes {A : Type} (cast : string -> option A) (piece : string)
  : Prop :=
  piece = EmptyString \/ is_Some (cast (c_str piece)).

End Handles.

End Param.

(** ** The parameter interface of the physics engine *)

Module Physics.

(** [math::Vector3]. *)
Record Vector3 `{Numeric} := { x : double; y : double; z : double }.

(** Modelled from the spec: [msgs::Vector3d] is generated from a protobuf
    schema that is not among the sources; it is the "vector3" payload of an
    update-message entry, a class of its own and not [math::Vector3]. *)
Record MsgVector3d `{Numeric} :=
  { msg_x : double; msg_y : double; msg_z : double }.

(** [boost::any]: the value held, tagged by its type. [AnyOther] stands for
    a value of any type the interface never casts to. *)
Inductive any `{Numeric} :=
| AnyEmpty
| AnyDouble (d : double)
| AnyInt (i : Z)
| AnyString (s : string)
| AnyMsgVector3d (v : MsgVector3d)
| AnyBool (b : bool)
| AnyFloat (f : float)
| AnyVector3 (v : Vector3)
| AnyOther (type_name : string).

(** [boost::any_cast<double>]: [None] is the [boost::bad_any_cast] thrown
    when the held type is another one. *)
Definition any_cast_double `{Numeric} (v : any) : option double :=
  match v with AnyDouble d => Some d | _ => None end.

(** [boost::any_cast<math::Vector3>]. *)
Definition any_cast_Vector3 `{Numeric} (v : any) : option Vector3 :=
  match v with AnyVector3 w => Some w | _ => None end.

(** The description tree, an external collaborator used through its
    accessors as a state that each call may change.
    - [Element_GetElement n t] is the tree [t] after [t->GetElement(n)]; the
      call gives the child of name [n], and nothing here makes it leave the
      tree as it was (it may add the child when there is none);
    - [Element_Set_double n d t] is the tree [t] after [Set(d)] on the child
      of name [n] that [GetElement] gave;
    - [Element_Set_Vector3 n v t] is the tree [t] after [Set(v)] on the
      child of name [n] that [GetElement] gave;
    - [Element_Get_Vector3 n t] is [t->Get<math::Vector3>(n)], a member
      function that is [const]. *)
Class SdfTree `{Numeric} := {
  Element : Type;
  Element_GetElement : string -> Element -> Element;
  Element_Set_double : string -> double -> Element -> Element;
  Element_Set_Vector3 : string -> Vector3 -> Element -> Element;
  Element_Get_Vector3 : string -> Element -> Vector3
}.

(** The members of [PhysicsEngine] that the parameter interface reads or
    writes. [derived] is the state of the concrete engine, together with the
    members the interface never touches. *)
Record PhysicsEngine `{SdfTree} (Derived : Type) := {
  sdf : Element;
  targetRealTimeFactor : double;
  realTimeUpdateRate : double;
  maxStepSize : double;
  derived : Derived
}.
Arguments sdf {_ _ _} _.
Arguments targetRealTimeFactor {_ _ _} _.
Arguments realTimeUpdateRate {_ _ _} _.
Arguments maxStepSize {_ _ _} _.
Arguments derived {_ _ _} _.
Arguments Build_PhysicsEngine {_ _ _} _ _ _ _ _.

(** The virtual member functions a concrete engine supplies, and how the
    engine is compiled: [object_first] tells whether the object expression
    of a member call is evaluated before the arguments of the call. It is
    since C++17; before, the order is unspecified. *)
Class Backend `{SdfTree} := {
  Derived : Type;
  GetType : PhysicsEngine Derived -> string;
  SetGravity : Vector3 -> PhysicsEngine Derived -> PhysicsEngine Derived;
  object_first : bool
}.

(** Modelled from the spec: [msgs::NamedParam_Type] is generated from a
    protobuf schema that is not among the sources. The enumerators are the
    labels of the switch in [OnPhysicsMsg]. *)
Inductive NamedParam_Type :=
| DOUBLE_TYPE | INT_TYPE | STRING_TYPE | VECTOR3D_TYPE | BOOL_TYPE
| FLOAT_TYPE.

(** Modelled from the spec: [msgs::NamedParam] is generated from a protobuf
    schema that is not among the sources. An entry has a name, an optional
    explicit type discriminator and optional value fields; [None] is a field
    whose [has_...()] is false. *)
Record NamedParam `{Numeric} := {
  name : string;
  type : option NamedParam_Type;
  double_value : option double;
  int_value : option Z;
  string_value : option string;
  vector3d : option MsgVector3d;
  bool_value : option bool;
  float_value : option float
}.

Section Dispatch.
Context `{Backend}.

Local Abbreviation Engine := (PhysicsEngine Derived).

Definition GetGravity (e : Engine) : Vector3 :=
  Element_Get_Vector3 "gravity" (sdf e).

Definition GetTargetRealTimeFactor (e : Engine) : double :=
  targetRealTimeFactor e.

Definition GetRealTimeUpdateRate (e : Engine) : double :=
  realTimeUpdateRate e.

Definition GetMaxStepSize (e : Engine) : double := maxStepSize e.

Definition SetTargetRealTimeFactor (_factor : double) (e : Engine)
  : Engine :=
  {| sdf := Element_Set_double "real_time_factor" _factor
              (Element_GetElement "real_time_factor" (sdf e));
     targetRealTimeFactor := _factor;
     realTimeUpdateRate := realTimeUpdateRate e;
     maxStepSize := maxStepSize e;
     derived := derived e |}.

Definition SetRealTimeUpdateRate (_rate : double) (e : Engine) : Engine :=
  {| sdf := Element_Set_double "real_time_update_rate" _rate
              (Element_GetElement "real_time_update_rate" (sdf e));
     targetRealTimeFactor := targetRealTimeFactor e;
     realTimeUpdateRate := _rate;
     maxStepSize := maxStepSize e;
     derived := derived e |}.

Definition SetMaxStepSize (_stepSize : double) (e : Engine) : Engine :=
  {| sdf := Element_Set_double "max_step_size" _stepSize
              (Element_GetElement "max_step_size" (sdf e));
     targetRealTimeFactor := targetRealTimeFactor e;
     realTimeUpdateRate := realTimeUpdateRate e;
     maxStepSize := _stepSize;
     derived := derived e |}.

(** The object expression of the [magnetic_field] branch,
    [this->sdf->GetElement("magnetic_field")]: the engine after it. *)
Definition magnetic_field_element (e : Engine) : Engine :=
  {| sdf := Element_GetElement "magnetic_field" (sdf e);
     targetRealTimeFactor := targetRealTimeFactor e;
     realTimeUpdateRate := realTimeUpdateRate e;
     maxStepSize := maxStepSize e;
     derived := derived e |}.

(** The whole call of the [magnetic_field] branch, once the cast has given
    a vector: [GetElement], then [Set] on the child. *)
Definition set_magnetic_field (v : Vector3) (e : Engine) : Engine :=
  {| sdf := Element_Set_Vector3 "magnetic_field" v
              (Element_GetElement "magnetic_field" (sdf e));
     targetRealTimeFactor := targetRealTimeFactor e;
     realTimeUpdateRate := realTimeUpdateRate e;
     maxStepSize := maxStepSize e;
     derived := derived e |}.

(** A setter applied to the result of an [any_cast]: the cast is
    evaluated before the call, and its exception is caught by [SetParam],
    which then returns false. *)
Definition with_cast {A : Type} (cast : option A)
    (setter : A -> Engine -> Engine) (e : Engine) : bool * Engine :=
  match cast with
  | Some a => (true, setter a e)
  | None => (false, e)
  end.

(** [PhysicsEngine::SetParam]: the value returned and the engine after
    the call. In the four branches that call a setter of the engine the cast
    is the argument of the call and throws before the setter is entered. In
    the [magnetic_field] branch the cast is the argument of [Set], whose
    object expression is the call of [GetElement]: when the object
    expression is evaluated first, [GetElement] has run by the time the
    cast throws. *)
Definition SetParam (_key : string) (_value : any) (e : Engine)
  : bool * Engine :=
  if String.eqb _key "type" then (false, e)
  else if String.eqb _key "max_step_size" then
    with_cast (any_cast_double _value) SetMaxStepSize e
  else if String.eqb _key "real_time_update_rate" then
    with_cast (any_cast_double _value) SetRealTimeUpdateRate e
  else if String.eqb _key "real_time_factor" then
    with_cast (any_cast_double _value) SetTargetRealTimeFactor e
  else if String.eqb _key "gravity" then
    with_cast (any_cast_Vector3 _value) SetGravity e
  else if String.eqb _key "magnetic_field" then
    match any_cast_Vector3 _value with
    | Some v => (true, set_magnetic_field v e)
    | None =>
        (false, if object_first then magnetic_field_element e else e)
    end
  else (false, e).

(** [PhysicsEngine::GetParam(const std::string&, boost::any&)]: the value
    returned and the content of [_value] after the call. *)
Definition GetParam (_key : string) (_value : any) (e : Engine)
  : bool * any :=
  if String.eqb _key "type" then (true, AnyString (GetType e))
  else if String.eqb _key "max_step_size" then
    (true, AnyDouble (GetMaxStepSize e))
  else if String.eqb _key "real_time_update_rate" then
    (true, AnyDouble (GetRealTimeUpdateRate e))
  else if String.eqb _key "real_time_factor" then
    (true, AnyDouble (GetTargetRealTimeFactor e))
  else if String.eqb _key "gravity" then (true, AnyVector3 (GetGravity e))
  else if String.eqb _key "magnetic_field" then
    (true, AnyVector3 (Element_Get_Vector3 "magnetic_field" (sdf e)))
  else (false, _value).

(** The value an entry of the message decodes to; [None] is the
    [continue] after the "Empty parameter msg" warning. A protobuf
    accessor gives the default of its type when the field is absent. Every
    discriminator of a parsed message is one of the six enumerators, so
    the [default] label of the switch has no case here. *)
Definition decode (p : NamedParam) : option any :=
  match type p with
  | Some t =>
      Some match t with
           | DOUBLE_TYPE => AnyDouble (default double_default (double_value p))
           | INT_TYPE => AnyInt (default 0%Z (int_value p))
           | STRING_TYPE => AnyString (default EmptyString (string_value p))
           | VECTOR3D_TYPE =>
               AnyMsgVector3d
                 (default {| msg_x := double_default;
                             msg_y := double_default;
                             msg_z := double_default |} (vector3d p))
           | BOOL_TYPE => AnyBool (default false (bool_value p))
           | FLOAT_TYPE => AnyFloat (default float_default (float_value p))
           end
  | None =>
      match double_value p with
      | Some d => Some (AnyDouble d)
      | None =>
      match int_value p with
      | Some i => Some (AnyInt i)
      | None =>
      match string_value p with
      | Some s => Some (AnyString s)
      | None =>
      match vector3d p with
      | Some v => Some (AnyMsgVector3d v)
      | None =>
      match bool_value p with
      | Some b => Some (AnyBool b)
      | None =>
      match float_value p with
      | Some f => Some (AnyFloat f)
      | None => None
      end end end end end end
  end.

(** [PhysicsEngine::OnPhysicsMsg] on the entries of the message, first to
    last. *)
Fixpoint OnPhysicsMsg (parameters : list NamedParam) (e : Engine)
  : Engine :=
  match parameters with
  | [] => e
  | p :: rest =>
      match decode p with
      | None => OnPhysicsMsg rest e
      | Some value => OnPhysicsMsg rest (snd (SetParam (name p) value e))
      end
  end.

(** [OnPhysicsMsg] with the [SetParam] that the call [this->SetParam]
    reaches as a parameter: the one of [PhysicsEngine] or the one of a
    class that overrides it. *)
Fixpoint OnPhysicsMsg_via (set : string -> any -> Engine -> bool * Engine)
    (parameters : list NamedParam) (e : Engine) : Engine :=
  match parameters with
  | [] => e
  | p :: rest =>
      match decode p with
      | None => OnPhysicsMsg_via set rest e
      | Some value =>
          OnPhysicsMsg_via set rest (snd (set (name p) value e))
      end
  end.

(** Two engines with the same members and the same state of the concrete
    engine; their trees may differ. *)
Definition same_members (e e' : Engine) : Prop :=
  maxStepSize e' = maxStepSize e /\
  realTimeUpdateRate e' = realTimeUpdateRate e /\
  targetRealTimeFactor e' = targetRealTimeFactor e /\
  derived e' = derived e.

(** The six value fields of an entry in the order the specification
    gives for an entry without discriminator: double, int, string,
    vector3, bool, float. *)
Definition populated (p : NamedParam) : list (option any) :=
  [ AnyDouble <$> double_value p;
    AnyInt <$> int_value p;
    AnyString <$> string_value p;
    AnyMsgVector3d <$> vector3d p;
    AnyBool <$> bool_value p;
    AnyFloat <$> float_value p ].

(** "First populated field wins". *)
Fixpoint first_populated (fields : list (option any)) : option any :=
  match fields with
  | [] => None
  | Some v :: _ => Some v
  | None :: rest => first_populated rest
  end.

(** The decoded (key, value) pairs of a message, in message order. *)
Definition decoded (parameters : list NamedParam) : list (string * any) :=
  omap (fun p => (fun v => (name p, v)) <$> decode p) parameters.

(** Feeding one pair to [SetParam]. *)
Definition dispatch (e : Engine) (kv : string * any) : Engine :=
  snd (SetParam (fst kv) (snd kv) e).

(** An entry with a name and nothing else. *)
Definition empty_entry (n : string) : NamedParam :=
  {| name := n; type := None; double_value := None; int_value := None;
     string_value := None; vector3d := None; bool_value := None;
     float_value := None |}.

(** An entry with a double and no discriminator. *)
Definition double_entry (n : string) (d : double) : NamedParam :=
  {| name := n; type := None; double_value := Some d; int_value := None;
     string_value := None; vector3d := None; bool_value := None;
     float_value := None |}.

(** The keys [SetParam] and [GetParam] compare with. *)
Definition known_keys : list string :=
  [ "type"; "max_step_size"; "real_time_update_rate"; "real_time_factor";
    "gravity"; "magnetic_field" ].

End Dispatch.

(** *** Loading, and the other overload of [GetParam] *)

(** Two more accessors of the description tree.
    - [Element_Get_double n t] is [Get<double>()] on the child of name [n]
      of the tree [t];
    - [Element_Copy _sdf t] is the tree [t] after [t->Copy(_sdf)]. *)
Class SdfRead `{SdfTree} := {
  Element_Get_double : string -> Element -> double;
  Element_Copy : Element -> Element -> Element
}.

Section Loading.
Context `{Backend} `{!SdfRead}.

Local Abbreviation Engine := (PhysicsEngine Derived).

(** [PhysicsEngine::Load]: the copy, then three times [GetElement] and
    [Get<double>()] on the child, in the order of the source. *)
Definition Load (_sdf : Element) (e : Engine) : Engine :=
  let tree := Element_Copy _sdf (sdf e) in
  let tree1 := Element_GetElement "real_time_update_rate" tree in
  let rate := Element_Get_double "real_time_update_rate" tree1 in
  let tree2 := Element_GetElement "real_time_factor" tree1 in
  let factor := Element_Get_double "real_time_factor" tree2 in
  let tree3 := Element_GetElement "max_step_size" tree2 in
  let step := Element_Get_double "max_step_size" tree3 in
  {| sdf := tree3;
     targetRealTimeFactor := factor;
     realTimeUpdateRate := rate;
     maxStepSize := step;
     derived := derived e |}.

(** [PhysicsEngine::GetParam(const std::string&)]: [return 0], which makes
    a [boost::any] holding the [int] 0. *)
Definition GetParam_any (_key : string) (e : Engine) : any := AnyInt 0.

(** The three members agree with the elements of the tree they are
    written to. *)
Definition coherent (e : Engine) : Prop :=
  maxStepSize e = Element_Get_double "max_step_size" (sdf e) /\
  realTimeUpdateRate e
  = Element_Get_double "real_time_update_rate" (sdf e) /\
  targetRealTimeFactor e = Element_Get_double "real_time_factor" (sdf e).

(** What the tree is expected to do: a double that was set is the one
    read, and setting an element, or getting it, leaves the doubles of the
    elements of other names as they were. *)
Definition tree_laws : Prop :=
  (forall n d t,
     Element_Get_double n (Element_Set_double n d t) = d) /\
  (forall n m d t, n <> m ->
     Element_Get_double n (Element_Set_double m d t)
     = Element_Get_double n t) /\
  (forall n m v t, n <> m ->
     Element_Get_double n (Element_Set_Vector3 m v t)
     = Element_Get_double n t) /\
  (forall n m t, n <> m ->
     Element_Get_double n (Element_GetElement m t)
     = Element_Get_double n t).

(** What [SetParam] does with a pair whose value is no [math::Vector3]:
    with the key of the magnetic field, the object expression and no more;
    with another key and a double, the setter of the key. *)
Definition apply_pair (e : Engine) (kv : string * any) : Engine :=
  if String.eqb (fst kv) "magnetic_field" then
    if object_first then magnetic_field_element e else e
  else
    match snd kv with
    | AnyDouble d =>
        if String.eqb (fst kv) "max_step_size" then SetMaxStepSize d e
        else if String.eqb (fst kv) "real_time_update_rate" then
          SetRealTimeUpdateRate d e
        else if String.eqb (fst kv) "real_time_factor" then
          SetTargetRealTimeFactor d e
        else e
    | _ => e
    end.

End Loading.

End Physics.

(** ** An instance for running the code on examples *)

Module Demo.

(** Decimal digits, most significant first. *)
Fixpoint digits (s : string) (acc : Z) : option Z :=
  match s with
  | EmptyString => Some acc
  | String c r =>
      let n := Z.of_nat (nat_of_ascii c) in
      if ((48 <=? n) && (n <=? 57))%Z then digits r (10 * acc + (n - 48))%Z
      else None
  end.

(** An optional sign and at least one digit. *)
Definition read_integer (s : string) : option Z :=
  match s with
  | EmptyString => None
  | String "-" (String c r) => Z.opp <$> digits (String c r) 0
  | String "+" (String c r) => digits (String c r) 0
  | _ => digits s 0
  end.

(** The numeric interface restricted to numbers written as decimal
    integers, which both conversions read exactly; [int] is 32 bits wide. *)
Definition integers : Numeric :=
  {| double := Z; float := Z; double_default := 0%Z; float_default := 0%Z;
     lexical_cast_double := read_integer;
     lexical_cast_int := fun s =>
       match read_integer s with
       | Some i =>
           if ((- 2 ^ 31 <=? i) && (i <? 2 ^ 31))%Z then Some i else None
       | None => None
       end |}.

(** No stream output beside the one of strings. *)
Definition no_output : @Param.Payload integers -> string :=
  fun _ => EmptyString.

Inductive SdfValue :=
| SdfDefault
| SdfDouble (d : Z)
| SdfVector3 (v : @Physics.Vector3 integers).

(** A description tree as a finite map from the name of a child element to
    its value. [GetElement] adds the child when there is none. *)
Definition tree : @Physics.SdfTree integers :=
  @Physics.Build_SdfTree integers (gmap string SdfValue)
    (fun n t =>
       match t !! n with
       | Some _ => t
       | None => <[n := SdfDefault]> t
       end)
    (fun n (d : Z) t => <[n := SdfDouble d]> t)
    (fun n v t => <[n := SdfVector3 v]> t)
    (fun n t =>
       match t !! n with
       | Some (SdfVector3 v) => v
       | _ => @Physics.Build_Vector3 integers 0%Z 0%Z 0%Z
       end).

(** An engine whose [SetGravity] stores the vector in the tree, compiled
    with the object expression first. *)
Definition engine : @Physics.Backend integers tree :=
  @Physics.Build_Backend integers tree unit
    (fun _ => "ode")
    (fun g e =>
       @Physics.Build_PhysicsEngine integers tree unit
         (<[ "gravity" := SdfVector3 g ]> (@Physics.sdf integers tree unit e))
         (Physics.targetRealTimeFactor e)
         (Physics.realTimeUpdateRate e)
         (Physics.maxStepSize e)
         (Physics.derived e))
    true.

Definition world : @Physics.PhysicsEngine integers tree unit :=
  @Physics.Build_PhysicsEngine integers tree unit
    (∅ : gmap string SdfValue) 1%Z 1000%Z 1%Z tt.

Definition origin : @Param.Vector3 integers :=
  @Param.Build_Vector3 integers 0%Z 0%Z 0%Z.

(** Reading a double of the tree; a copy is the tree copied from. *)
Definition tree_read : @Physics.SdfRead integers tree :=
  @Physics.Build_SdfRead integers tree
    (fun n (t : gmap string SdfValue) =>
       match t !! n with
       | Some (SdfDouble d) => d
       | _ => 0%Z
       end)
    (fun (_sdf t : gmap string SdfValue) => _sdf).

(** A description with the three rates. *)
Definition physics_sdf : gmap string SdfValue :=
  <[ "max_step_size" := SdfDouble 1%Z ]>
    (<[ "real_time_update_rate" := SdfDouble 1000%Z ]>
       (<[ "real_time_factor" := SdfDouble 1%Z ]> ∅)).

End Demo.

(** ** Properties of the parameter handles *)

Module ParamFacts.
Import Param.

(** *** The pieces of a string *)

Lemma eqb_empty_false (s : string) :
  s <> EmptyString -> String.eqb s EmptyString = false.
Proof. intros Hs. now apply String.eqb_neq. Qed.

Lemma retained_le pieces :
  (List.length (retained pieces) <= List.length pieces)%nat.
Proof.
  induction pieces as [|piece rest IH]; simpl; [lia|].
  destruct (String.eqb piece EmptyString); simpl; lia.
Qed.

Lemma retained_lt pieces :
  In EmptyString pieces ->
  (List.length (retained pieces) < List.length pieces)%nat.
Proof.
  induction pieces as [|piece rest IH]; simpl; [intros []|].
  intros [->|Hin]; simpl.
  - pose proof (retained_le rest). lia.
  - specialize (IH Hin). destruct (String.eqb piece EmptyString); simpl; lia.
Qed.

Section Loop.
Context {A : Type} (cast : string -> option A).

(** When the loop completes it has pushed one element for each piece that
    is not empty. *)
Lemma parse_pieces_length pieces : forall i elements result,
  parse_pieces cast pieces i elements = inr result ->
  List.length result
  = (List.length elements + List.length (retained pieces))%nat.
Proof.
  induction pieces as [|piece rest IH]; intros i elements result; simpl.
  - intros [= <-]. lia.
  - destruct (String.eqb piece EmptyString); simpl.
    + apply IH.
    + destruct (cast (c_str piece)) as [e|]; [|discriminate].
      intros Hr. rewrite (IH _ _ _ Hr), length_app. simpl. lia.
Qed.

Lemma parse_pieces_two a b x y :
  a <> EmptyString -> b <> EmptyString ->
  cast (c_str a) = Some x -> cast (c_str b) = Some y ->
  parse_pieces cast [a; b] 0 [] = inr [x; y].
Proof.
  intros Ha Hb Hx Hy. simpl.
  rewrite (eqb_empty_false a Ha), Hx, (eqb_empty_false b Hb), Hy.
  reflexivity.
Qed.

Lemma parse_pieces_three a b c x y z :
  a <> EmptyString -> b <> EmptyString -> c <> EmptyString ->
  cast (c_str a) = Some x -> cast (c_str b) = Some y ->
  cast (c_str c) = Some z ->
  parse_pieces cast [a; b; c] 0 [] = inr [x; y; z].
Proof.
  intros Ha Hb Hc Hx Hy Hz. simpl.
  rewrite (eqb_empty_false a Ha), Hx, (eqb_empty_false b Hb), Hy,
    (eqb_empty_false c Hc), Hz.
  reflexivity.
Qed.
End Loop.

Section Vectors.
Context `{Numeric} (to_s : Payload -> string).

(** A string of exactly as many pieces as the vector has components, each
    piece a number, is read as that vector. *)
Lemma Get_Vector3_well_formed p out a b c x y z :
  IsVector3 (base p) = false ->
  split (GetAsString to_s p) = [a; b; c] ->
  a <> EmptyString -> b <> EmptyString -> c <> EmptyString ->
  lexical_cast_double (c_str a) = Some x ->
  lexical_cast_double (c_str b) = Some y ->
  lexical_cast_double (c_str c) = Some z ->
  Get_Vector3 to_s p out
  = GetTrue {| v3_x := x; v3_y := y; v3_z := z |}.
Proof.
  intros Htag Hsplit Ha Hb Hc Hx Hy Hz. unfold Get_Vector3.
  rewrite Htag, Hsplit. simpl List.length. simpl negb. cbv iota.
  now rewrite (parse_pieces_three _ a b c x y z).
Qed.

Lemma Get_Vector2i_well_formed p out a b x y :
  IsVector2i (base p) = false ->
  split (GetAsString to_s p) = [a; b] ->
  a <> EmptyString -> b <> EmptyString ->
  lexical_cast_int (c_str a) = Some x ->
  lexical_cast_int (c_str b) = Some y ->
  Get_Vector2i to_s p out = GetTrue {| v2i_x := x; v2i_y := y |}.
Proof.
  intros Htag Hsplit Ha Hb Hx Hy. unfold Get_Vector2i.
  rewrite Htag, Hsplit. simpl List.length. simpl negb. cbv iota.
  now rewrite (parse_pieces_two _ a b x y).
Qed.

Lemma Get_Vector2d_well_formed p out a b x y :
  IsVector2d (base p) = false ->
  split (GetAsString to_s p) = [a; b] ->
  a <> EmptyString -> b <> EmptyString ->
  lexical_cast_double (c_str a) = Some x ->
  lexical_cast_double (c_str b) = Some y ->
  Get_Vector2d to_s p out = GetTrue {| v2d_x := x; v2d_y := y |}.
Proof.
  intros Htag Hsplit Ha Hb Hx Hy. unfold Get_Vector2d.
  rewrite Htag, Hsplit. simpl List.length. simpl negb. cbv iota.
  now rewrite (parse_pieces_two _ a b x y).
Qed.

(** The wrong-count report is the one of the guard on the number of
    pieces, and of nothing else. *)
Lemma Get_Vector3_wrong_count p out :
  IsVector3 (base p) = false ->
  Get_Vector3 to_s p out = GetFalse out (WrongPieceCount 3)
  <-> List.length (split (GetAsString to_s p)) <> 3%nat.
Proof.
  intros Htag. unfold Get_Vector3, at_index. rewrite Htag.
  destruct (Nat.eqb_spec (List.length (split (GetAsString to_s p))) 3)
    as [Heq|Hne]; simpl.
  - split; [|intros Hc; now destruct Hc].
    destruct (parse_pieces _ _ _ _) as [[piece i]|elements];
      [discriminate|].
    repeat (destruct (_ !! _); [|discriminate]). discriminate.
  - split; [intros _; exact Hne | reflexivity].
Qed.

Lemma Get_Vector2i_wrong_count p out :
  IsVector2i (base p) = false ->
  Get_Vector2i to_s p out = GetFalse out (WrongPieceCount 2)
  <-> List.length (split (GetAsString to_s p)) <> 2%nat.
Proof.
  intros Htag. unfold Get_Vector2i, at_index. rewrite Htag.
  destruct (Nat.eqb_spec (List.length (split (GetAsString to_s p))) 2)
    as [Heq|Hne]; simpl.
  - split; [|intros Hc; now destruct Hc].
    destruct (parse_pieces _ _ _ _) as [[piece i]|elements];
      [discriminate|].
    repeat (destruct (_ !! _); [|discriminate]). discriminate.
  - split; [intros _; exact Hne | reflexivity].
Qed.

Lemma Get_Vector2d_wrong_count p out :
  IsVector2d (base p) = false ->
  Get_Vector2d to_s p out = GetFalse out (WrongPieceCount 2)
  <-> List.length (split (GetAsString to_s p)) <> 2%nat.
Proof.
  intros Htag. unfold Get_Vector2d, at_index. rewrite Htag.
  destruct (Nat.eqb_spec (List.length (split (GetAsString to_s p))) 2)
    as [Heq|Hne]; simpl.
  - split; [|intros Hc; now destruct Hc].
    destruct (parse_pieces _ _ _ _) as [[piece i]|elements];
      [discriminate|].
    repeat (destruct (_ !! _); [|discriminate]). discriminate.
  - split; [intros _; exact Hne | reflexivity].
Qed.
End Vectors.

Section Claims.
Context `{Numeric} (to_s : Payload -> string).

(** C1. What the code does where the claim has it succeed. The claim: empty
    tokens are skipped before the count is checked, so a string with as
    many non-empty tokens as the vector has components is read, "1  2   3"
    as (1,2,3). The code: the count is checked on the pieces as split at
    every single space, before the loop that passes over the empty ones, so
    every string form with the required number of non-empty tokens and at
    least one empty token besides is refused with the wrong-count report,
    and "1  2   3" is. *)
Theorem vector_get_refuses_extra_spaces :
  (forall p out, IsVector3 (base p) = false ->
     List.length (retained (split (GetAsString to_s p))) = 3%nat ->
     In EmptyString (split (GetAsString to_s p)) ->
     Get_Vector3 to_s p out = GetFalse out (WrongPieceCount 3)) /\
  (forall p out, IsVector2i (base p) = false ->
     List.length (retained (split (GetAsString to_s p))) = 2%nat ->
     In EmptyString (split (GetAsString to_s p)) ->
     Get_Vector2i to_s p out = GetFalse out (WrongPieceCount 2)) /\
  (forall p out, IsVector2d (base p) = false ->
     List.length (retained (split (GetAsString to_s p))) = 2%nat ->
     In EmptyString (split (GetAsString to_s p)) ->
     Get_Vector2d to_s p out = GetFalse out (WrongPieceCount 2)) /\
  (forall k out,
     retained (split "1  2   3") = ["1"; "2"; "3"] /\
     Get_Vector3 to_s (ParamT_string k "1  2   3") out
     = GetFalse out (WrongPieceCount 3)).
Proof.
  repeat apply conj.
  - intros p out Htag Hn Hin. apply Get_Vector3_wrong_count; [exact Htag|].
    apply retained_lt in Hin. lia.
  - intros p out Htag Hn Hin. apply Get_Vector2i_wrong_count; [exact Htag|].
    apply retained_lt in Hin. lia.
  - intros p out Htag Hn Hin. apply Get_Vector2d_wrong_count; [exact Htag|].
    apply retained_lt in Hin. lia.
  - intros k out. split; reflexivity.
Qed.

(** C2. On every handle whose tag is not "vector3", [Get(Vector3&)] does
    not stop at the tag: its result is a function of the handle's string
    form, split at spaces into three numbers. A handle constructed as
    string with the value "4 5 6" gives (4,5,6), while [Get(int&)] on the
    same handle returns false. [Get(Vector2i&)] and [Get(Vector2d&)] fall
    back in the same way. *)
Theorem vector_get_falls_back_to_string :
  (forall p q out,
     IsVector3 (base p) = false -> IsVector3 (base q) = false ->
     GetAsString to_s p = GetAsString to_s q ->
     Get_Vector3 to_s p out = Get_Vector3 to_s q out) /\
  (forall k out x y z,
     lexical_cast_double "4" = Some x ->
     lexical_cast_double "5" = Some y ->
     lexical_cast_double "6" = Some z ->
     Get_Vector3 to_s (ParamT_string k "4 5 6") out
     = GetTrue {| v3_x := x; v3_y := y; v3_z := z |}) /\
  (forall k out,
     Get_int (ParamT_string k "4 5 6") out
     = GetFalse out (NotOfType k "int")) /\
  (forall p q out,
     IsVector2i (base p) = false -> IsVector2i (base q) = false ->
     GetAsString to_s p = GetAsString to_s q ->
     Get_Vector2i to_s p out = Get_Vector2i to_s q out) /\
  (forall k out x y,
     lexical_cast_int "4" = Some x -> lexical_cast_int "5" = Some y ->
     Get_Vector2i to_s (ParamT_string k "4 5") out
     = GetTrue {| v2i_x := x; v2i_y := y |}) /\
  (forall p q out,
     IsVector2d (base p) = false -> IsVector2d (base q) = false ->
     GetAsString to_s p = GetAsString to_s q ->
     Get_Vector2d to_s p out = Get_Vector2d to_s q out) /\
  (forall k out x y,
     lexical_cast_double "4" = Some x -> lexical_cast_double "5" = Some y ->
     Get_Vector2d to_s (ParamT_string k "4 5") out
     = GetTrue {| v2d_x := x; v2d_y := y |}).
Proof.
  repeat apply conj.
  - intros p q out Hp Hq Hs. unfold Get_Vector3. now rewrite Hp, Hq, Hs.
  - intros k out x y z Hx Hy Hz.
    apply (Get_Vector3_well_formed to_s _ out "4" "5" "6");
      solve [reflexivity | discriminate | assumption].
  - intros k out. reflexivity.
  - intros p q out Hp Hq Hs. unfold Get_Vector2i. now rewrite Hp, Hq, Hs.
  - intros k out x y Hx Hy.
    apply (Get_Vector2i_well_formed to_s _ out "4" "5");
      solve [reflexivity | discriminate | assumption].
  - intros p q out Hp Hq Hs. unfold Get_Vector2d. now rewrite Hp, Hq, Hs.
  - intros k out x y Hx Hy.
    apply (Get_Vector2d_well_formed to_s _ out "4" "5");
      solve [reflexivity | discriminate | assumption].
Qed.
(** C5. Each of the eleven scalar accessors (bool, int, unsigned int,
    float, double, char, string, quaternion, pose, color, time) checks the
    tag and nothing else: with another tag it returns false, raising
    nothing, and the caller's variable keeps its value; with its own tag it
    returns the stored value. None of them takes the string form or a
    conversion from strings as an argument. *)
Theorem scalar_get_checks_the_tag :
  tag_checked IsBool VBool Get_bool /\
  tag_checked IsInt VInt Get_int /\
  tag_checked IsUInt VUInt Get_uint /\
  tag_checked IsFloat VFloat Get_float /\
  tag_checked IsDouble VDouble Get_double /\
  tag_checked IsChar VChar Get_char /\
  tag_checked IsStr VStr Get_string /\
  tag_checked IsQuaternion VQuaternion Get_Quaternion /\
  tag_checked IsPose VPose Get_Pose /\
  tag_checked IsColor VColor Get_Color /\
  tag_checked IsTime VTime Get_Time.
Proof.
  repeat apply conj; intros p out; split;
    unfold Get_bool, Get_int, Get_uint, Get_float, Get_double, Get_char,
      Get_string, Get_Quaternion, Get_Pose, Get_Color, Get_Time.
  all: try (intros Htag; rewrite Htag; eexists; reflexivity).
  all: intros v Htag Hv; rewrite Htag, Hv; reflexivity.
Qed.

(** C9. While the registry is null the constructor leaves it null and
    completes as it does otherwise; while it is not, the constructor
    appends the new handle at the end, so that after any sequence of
    constructions the registry lists the handles constructed since it was
    empty in the order of their construction. *)
Theorem registry_follows_construction :
  (forall p, snd (Param_ctor p None) = None) /\
  (forall p ps, fst (Param_ctor p None) = fst (Param_ctor p (Some ps))) /\
  (forall p ps, snd (Param_ctor p (Some ps)) = Some (ps ++ [p])) /\
  (forall news, construct_all news None = None) /\
  (forall news ps, construct_all news (Some ps) = Some (ps ++ news)) /\
  (forall news, construct_all news (Some []) = Some news).
Proof.
  assert (Hnone : forall news, construct_all news None = None)
    by (induction news; simpl; auto).
  assert (Hsome : forall news ps,
             construct_all news (Some ps) = Some (ps ++ news)).
  { induction news as [|p rest IH]; intros ps; simpl.
    - now rewrite app_nil_r.
    - rewrite IH, <- app_assoc. reflexivity. }
  repeat apply conj; auto.
Qed.

(** C10. The arity guard counts the pieces and the final reads index the
    elements. Whenever the string form has the required number of pieces
    and one of them is empty, the accessor either reports a piece that is
    no number or reads [elements[i]] for an [i] that is not below the size
    of [elements]: never does it return true. With two spaces as the string
    form [Get(Vector3&)] reads [elements[0]] of an empty vector, and so do
    [Get(Vector2i&)] and [Get(Vector2d&)] with one space; with "1 2 " (a
    space at the end) and a conversion that reads "1" and "2",
    [Get(Vector3&)] reads [elements[2]] of a vector of two. *)
Theorem vector_get_reads_past_the_elements :
  (forall p out,
     IsVector3 (base p) = false ->
     List.length (split (GetAsString to_s p)) = 3%nat ->
     In EmptyString (split (GetAsString to_s p)) ->
     (exists i, (i < 3)%nat /\
                Get_Vector3 to_s p out = Undef (OutOfRange i)) \/
     (exists piece i,
        Get_Vector3 to_s p out = GetFalse out (BadNumber piece i))) /\
  (forall p out,
     IsVector2i (base p) = false ->
     List.length (split (GetAsString to_s p)) = 2%nat ->
     In EmptyString (split (GetAsString to_s p)) ->
     (exists i, (i < 2)%nat /\
                Get_Vector2i to_s p out = Undef (OutOfRange i)) \/
     (exists piece i,
        Get_Vector2i to_s p out = GetFalse out (BadNumber piece i))) /\
  (forall p out,
     IsVector2d (base p) = false ->
     List.length (split (GetAsString to_s p)) = 2%nat ->
     In EmptyString (split (GetAsString to_s p)) ->
     (exists i, (i < 2)%nat /\
                Get_Vector2d to_s p out = Undef (OutOfRange i)) \/
     (exists piece i,
        Get_Vector2d to_s p out = GetFalse out (BadNumber piece i))) /\
  (forall k out,
     Get_Vector3 to_s (ParamT_string k "  ") out = Undef (OutOfRange 0)) /\
  (forall k out,
     Get_Vector2i to_s (ParamT_string k " ") out = Undef (OutOfRange 0)) /\
  (forall k out,
     Get_Vector2d to_s (ParamT_string k " ") out = Undef (OutOfRange 0)) /\
  (forall k out x y,
     lexical_cast_double "1" = Some x -> lexical_cast_double "2" = Some y ->
     Get_Vector3 to_s (ParamT_string k "1 2 ") out = Undef (OutOfRange 2)).
Proof.
  repeat apply conj; try (intros k out; reflexivity).
  - intros p out Htag Hlen Hin. unfold Get_Vector3, at_index.
    rewrite Htag, Hlen. simpl.
    destruct (parse_pieces _ _ _ _) as [[piece i]|elements] eqn:Hloop;
      [right; eauto|left].
    apply parse_pieces_length in Hloop. apply retained_lt in Hin.
    simpl in Hloop.
    destruct elements as [|x [|y [|z more]]]; simpl in *;
      solve [exists 0%nat; split; [lia | reflexivity]
            | exists 1%nat; split; [lia | reflexivity]
            | exists 2%nat; split; [lia | reflexivity]
            | lia].
  - intros p out Htag Hlen Hin. unfold Get_Vector2i, at_index.
    rewrite Htag, Hlen. simpl.
    destruct (parse_pieces _ _ _ _) as [[piece i]|elements] eqn:Hloop;
      [right; eauto|left].
    apply parse_pieces_length in Hloop. apply retained_lt in Hin.
    simpl in Hloop.
    destruct elements as [|x [|y more]]; simpl in *;
      solve [exists 0%nat; split; [lia | reflexivity]
            | exists 1%nat; split; [lia | reflexivity]
            | lia].
  - intros p out Htag Hlen Hin. unfold Get_Vector2d, at_index.
    rewrite Htag, Hlen. simpl.
    destruct (parse_pieces _ _ _ _) as [[piece i]|elements] eqn:Hloop;
      [right; eauto|left].
    apply parse_pieces_length in Hloop. apply retained_lt in Hin.
    simpl in Hloop.
    destruct elements as [|x [|y more]]; simpl in *;
      solve [exists 0%nat; split; [lia | reflexivity]
            | exists 1%nat; split; [lia | reflexivity]
            | lia].
  - intros k out x y Hx Hy. unfold Get_Vector3, at_index. simpl.
    now rewrite Hx, Hy.
Qed.
End Claims.

Lemma vector_get_refuses_extra_spaces_witness :
  @Get_Vector3 Demo.integers Demo.no_output
    (@ParamT_string Demo.integers "gravity" "0  0 -9") Demo.origin
  = GetFalse Demo.origin (WrongPieceCount 3).
Proof.
  destruct (@vector_get_refuses_extra_spaces Demo.integers Demo.no_output)
    as (H3 & _).
  apply H3.
  - reflexivity.
  - reflexivity.
  - right. left. reflexivity.
Defined.

Lemma vector_get_falls_back_to_string_witness :
  @Get_Vector3 Demo.integers Demo.no_output
    (@ParamT_string Demo.integers "size" "4 5 6") Demo.origin
  = GetTrue (@Build_Vector3 Demo.integers 4%Z 5%Z 6%Z) /\
  @Get_Vector2i Demo.integers Demo.no_output
    (@ParamT_string Demo.integers "size" "4 5") (Build_Vector2i 0 0)
  = GetTrue (Build_Vector2i 4 5).
Proof.
  destruct (@vector_get_falls_back_to_string Demo.integers Demo.no_output)
    as (_ & H3 & _ & _ & H2 & _).
  split; [apply H3 | apply H2]; reflexivity.
Defined.

Lemma scalar_get_checks_the_tag_witness :
  (exists err,
     @Get_int Demo.integers (@ParamT_double Demo.integers "mass" 5%Z) 7%Z
     = GetFalse 7%Z err) /\
  @Get_double Demo.integers (@ParamT_double Demo.integers "mass" 5%Z) 7%Z
  = GetTrue 5%Z.
Proof.
  destruct (@scalar_get_checks_the_tag Demo.integers)
    as (_ & Hint & _ & _ & Hdouble & _).
  split.
  - destruct (Hint (@ParamT_double Demo.integers "mass" 5%Z) 7%Z)
      as (Hfalse & _).
    apply Hfalse; reflexivity.
  - destruct (Hdouble (@ParamT_double Demo.integers "mass" 5%Z) 7%Z)
      as (_ & Hget).
    apply Hget; reflexivity.
Defined.

Lemma vector_get_reads_past_the_elements_witness :
  @Get_Vector3 Demo.integers Demo.no_output
    (@ParamT_string Demo.integers "gravity" "1 2 ") Demo.origin
  = Undef (OutOfRange 2).
Proof.
  destruct (@vector_get_reads_past_the_elements Demo.integers Demo.no_output)
    as (_ & _ & _ & _ & _ & _ & Hend).
  apply (Hend "gravity" Demo.origin 1%Z 2%Z); reflexivity.
Defined.

End ParamFacts.

(** ** Properties of the parameter interface of the engine *)

Module PhysicsFacts.
Import Physics.

(** Case analysis on the comparisons of a key with the known keys. *)
Ltac key_cases :=
  repeat match goal with
         | |- context [String.eqb ?k ?s] =>
             destruct (String.eqb_spec k s); subst
         end.

Section Keys.
Context `{Backend}.

Lemma not_known_key (key : string) :
  ~ In key known_keys ->
  key <> "type" /\ key <> "max_step_size" /\
  key <> "real_time_update_rate" /\ key <> "real_time_factor" /\
  key <> "gravity" /\ key <> "magnetic_field".
Proof. unfold known_keys. simpl. intuition. Qed.

(** Whenever [SetParam] returns false the members and the state of the
    concrete engine are as before; so is the tree, but for the key of the
    magnetic field, where it is as the object expression left it. *)
Lemma SetParam_false key (v : any) e :
  fst (SetParam key v e) = false ->
  same_members e (snd (SetParam key v e)) /\
  (key <> "magnetic_field" -> snd (SetParam key v e) = e) /\
  (key = "magnetic_field" ->
   snd (SetParam key v e)
   = if object_first then magnetic_field_element e else e).
Proof.
  unfold SetParam, with_cast, same_members. key_cases; simpl;
    repeat match goal with
           | |- context [match ?c with Some _ => _ | None => _ end] =>
               destruct c
           end; simpl; try discriminate; intros _;
    (split; [destruct object_first; now simpl|]);
    (split; [congruence | try reflexivity; congruence]).
Qed.

Lemma OnPhysicsMsg_app m1 : forall m2 e,
  OnPhysicsMsg (m1 ++ m2) e = OnPhysicsMsg m2 (OnPhysicsMsg m1 e).
Proof.
  induction m1 as [|p rest IH]; intros m2 e; simpl; [reflexivity|].
  destruct (decode p); apply IH.
Qed.

Lemma OnPhysicsMsg_decoded msg : forall e,
  OnPhysicsMsg msg e = foldl dispatch e (decoded msg).
Proof.
  induction msg as [|p rest IH]; intros e; simpl; [reflexivity|].
  unfold decoded. simpl. destruct (decode p) as [v|]; simpl; apply IH.
Qed.

Lemma decode_none p :
  decode p = None <->
  type p = None /\ double_value p = None /\ int_value p = None /\
  string_value p = None /\ vector3d p = None /\ bool_value p = None /\
  float_value p = None.
Proof.
  unfold decode. destruct p as [n t d i s v b f]; simpl.
  destruct t; [split; [discriminate | intros (Hc & _); discriminate]|].
  destruct d, i, s, v, b, f; split;
    solve [discriminate | intuition discriminate | intuition reflexivity].
Qed.
End Keys.

Section Claims.
Context `{Backend}.

(** C3. What the code does on a value of the wrong held type. The claim:
    for each of the five keys [SetParam] returns false and nothing of the
    engine, description tree included, is changed. The code: so it is for
    max_step_size, real_time_update_rate, real_time_factor and gravity,
    whose branches cast before they call the setter; in the branch of
    magnetic_field, [SetParam] returns false and the members are as
    before, but the call of [GetElement] that is the object expression of
    [Set] has run when the object expression is evaluated first, and the
    tree is the one that call left. *)
Theorem SetParam_type_mismatch key (v : any) e :
  ((key = "max_step_size" \/ key = "real_time_update_rate" \/
    key = "real_time_factor") ->
   (forall d, v <> AnyDouble d) -> SetParam key v e = (false, e)) /\
  (key = "gravity" ->
   (forall w, v <> AnyVector3 w) -> SetParam key v e = (false, e)) /\
  (key = "magnetic_field" ->
   (forall w, v <> AnyVector3 w) ->
   SetParam key v e
   = (false, if object_first then magnetic_field_element e else e) /\
   same_members e (snd (SetParam key v e))).
Proof.
  assert (Hvec : (forall w, v <> AnyVector3 w) -> any_cast_Vector3 v = None).
  { intros Hv. destruct v as [| | | | | | |w|]; try reflexivity.
    now destruct (Hv w). }
  repeat apply conj.
  - intros Hkey Hv.
    assert (Hcast : any_cast_double v = None).
    { destruct v; try reflexivity. now destruct (Hv d). }
    unfold SetParam. destruct Hkey as [-> | [-> | ->]]; simpl;
      now rewrite Hcast.
  - intros -> Hv. unfold SetParam. simpl. now rewrite (Hvec Hv).
  - intros -> Hv. unfold SetParam, same_members. simpl. rewrite (Hvec Hv).
    split; [reflexivity|]. destruct object_first; now simpl.
Qed.

(** C4. An entry without discriminator decodes to its first populated
    field in the order double, int, string, vector3, bool, float; so an
    entry with [int_value] and [string_value] populated, and no double
    before them, decodes as int. *)
Theorem legacy_decode_order (p : NamedParam) :
  type p = None ->
  decode p = first_populated (populated p) /\
  (forall i s, double_value p = None -> int_value p = Some i ->
               string_value p = Some s -> decode p = Some (AnyInt i)).
Proof.
  intros Ht. unfold decode, populated. rewrite Ht. split.
  - destruct (double_value p), (int_value p), (string_value p),
      (vector3d p), (bool_value p), (float_value p); reflexivity.
  - intros i s -> -> _. reflexivity.
Qed.

(** C6. [SetParam] with the key "type" returns false and leaves the engine
    as it was, whatever the value; and so it does with every key other
    than type, max_step_size, real_time_update_rate, real_time_factor,
    gravity and magnetic_field. *)
Theorem SetParam_rejects_type_and_unknown (v : any) e :
  SetParam "type" v e = (false, e) /\
  (forall key, ~ In key known_keys -> SetParam key v e = (false, e)).
Proof.
  split; [reflexivity|].
  intros key Hkey. apply not_known_key in Hkey.
  unfold SetParam. key_cases; intuition.
Qed.

(** C7. [OnPhysicsMsg] feeds to [SetParam] the decoded pairs of the
    message, one after the other in message order, whichever [SetParam] the
    call reaches. An entry with neither discriminator nor value is passed
    over; a decoded entry is fed to [SetParam] and the entries after it are
    handled on the engine that call left, whatever it returned. So in a
    message of three entries of which the second is passed over, or makes
    [SetParam] return false, the first and the third are applied: the
    members they set hold the values of these two entries. *)
Theorem OnPhysicsMsg_dispatches_in_order :
  (forall set msg e,
     OnPhysicsMsg_via set msg e
     = foldl (fun e' kv => snd (set (fst kv) (snd kv) e')) e (decoded msg)) /\
  (forall msg e, OnPhysicsMsg msg e = OnPhysicsMsg_via SetParam msg e) /\
  (forall msg e, OnPhysicsMsg msg e = foldl dispatch e (decoded msg)) /\
  (forall p rest,
     decoded (p :: rest)
     = match decode p with
       | Some v => (name p, v) :: decoded rest
       | None => decoded rest
       end) /\
  (forall m1 m2 e,
     OnPhysicsMsg (m1 ++ m2) e = OnPhysicsMsg m2 (OnPhysicsMsg m1 e)) /\
  (forall p rest e,
     type p = None -> double_value p = None -> int_value p = None ->
     string_value p = None -> vector3d p = None -> bool_value p = None ->
     float_value p = None ->
     OnPhysicsMsg (p :: rest) e = OnPhysicsMsg rest e) /\
  (forall p v rest e,
     decode p = Some v ->
     OnPhysicsMsg (p :: rest) e
     = OnPhysicsMsg rest (snd (SetParam (name p) v e))) /\
  (forall bad d1 d3 e,
     (decode bad = None \/
      exists v, decode bad = Some v /\
                fst (SetParam (name bad) v (SetMaxStepSize d1 e)) = false) ->
     let after := OnPhysicsMsg [double_entry "max_step_size" d1; bad;
                                double_entry "real_time_factor" d3] e in
     after
     = SetTargetRealTimeFactor d3
         (OnPhysicsMsg [bad] (SetMaxStepSize d1 e)) /\
     maxStepSize after = d1 /\ targetRealTimeFactor after = d3 /\
     realTimeUpdateRate after = realTimeUpdateRate e /\
     derived after = derived e) /\
  (forall bad d1 d3 e,
     decode bad = None ->
     OnPhysicsMsg [double_entry "max_step_size" d1; bad;
                   double_entry "real_time_factor" d3] e
     = SetTargetRealTimeFactor d3 (SetMaxStepSize d1 e)).
Proof.
  assert (Hthree : forall bad d1 d3 e,
             OnPhysicsMsg [double_entry "max_step_size" d1; bad;
                           double_entry "real_time_factor" d3] e
             = SetTargetRealTimeFactor d3
                 (OnPhysicsMsg [bad] (SetMaxStepSize d1 e))).
  { intros bad d1 d3 e.
    change [double_entry "max_step_size" d1; bad;
            double_entry "real_time_factor" d3]
      with ([double_entry "max_step_size" d1] ++ [bad]
            ++ [double_entry "real_time_factor" d3]).
    rewrite !OnPhysicsMsg_app. reflexivity. }
  repeat apply conj.
  - intros set msg. induction msg as [|p rest IH]; intros e;
      [reflexivity|].
    simpl. unfold decoded. simpl.
    destruct (decode p) as [v|]; simpl; apply IH.
  - intros msg. induction msg as [|p rest IH]; intros e; [reflexivity|].
    simpl. destruct (decode p); apply IH.
  - intros msg e. apply OnPhysicsMsg_decoded.
  - intros p rest. unfold decoded. simpl. now destruct (decode p).
  - intros m1 m2 e. apply OnPhysicsMsg_app.
  - intros p rest e Ht Hd Hi Hs Hv Hb Hf.
    assert (Hnone : decode p = None) by (apply decode_none; auto 10).
    simpl. now rewrite Hnone.
  - intros p v rest e Hdec. simpl. now rewrite Hdec.
  - intros bad d1 d3 e Hbad after. unfold after. rewrite Hthree.
    split; [reflexivity|].
    assert (Hsame : same_members (SetMaxStepSize d1 e)
                      (OnPhysicsMsg [bad] (SetMaxStepSize d1 e))).
    { simpl. destruct Hbad as [-> | (v & -> & Hfalse)].
      - unfold same_members. auto.
      - now apply SetParam_false. }
    destruct Hsame as (Hm & Hr & Hf & Hd).
    set (middle := OnPhysicsMsg [bad] (SetMaxStepSize d1 e)) in *.
    unfold SetTargetRealTimeFactor. simpl. rewrite Hm, Hr, Hd. auto.
  - intros bad d1 d3 e Hbad. rewrite Hthree. simpl. now rewrite Hbad.
Qed.

(** C8. [GetParam] returns true and assigns the current value for the keys
    type, max_step_size, real_time_update_rate, real_time_factor, gravity
    and magnetic_field, and for no other key: for those it returns false.
    The keys are the ones some value can be set for through [SetParam],
    and "type". *)
Theorem GetParam_known_keys (out : any) e :
  GetParam "type" out e = (true, AnyString (GetType e)) /\
  GetParam "max_step_size" out e = (true, AnyDouble (maxStepSize e)) /\
  GetParam "real_time_update_rate" out e
  = (true, AnyDouble (realTimeUpdateRate e)) /\
  GetParam "real_time_factor" out e
  = (true, AnyDouble (targetRealTimeFactor e)) /\
  GetParam "gravity" out e
  = (true, AnyVector3 (Element_Get_Vector3 "gravity" (sdf e))) /\
  GetParam "magnetic_field" out e
  = (true, AnyVector3 (Element_Get_Vector3 "magnetic_field" (sdf e))) /\
  (forall key, ~ In key known_keys -> GetParam key out e = (false, out)) /\
  (forall key, fst (GetParam key out e) = true <-> In key known_keys) /\
  (forall key,
     In key known_keys <->
     key = "type" \/ exists v, fst (SetParam key v e) = true).
Proof.
  repeat apply conj; try reflexivity.
  - intros key Hkey. apply not_known_key in Hkey.
    unfold GetParam. key_cases; intuition.
  - intros key. unfold GetParam, known_keys.
    key_cases; simpl; intuition congruence.
  - intros key. unfold known_keys. simpl. split.
    + set (g := {| x := double_default; y := double_default;
                   z := double_default |}).
      intros [<- | [<- | [<- | [<- | [<- | [<- | []]]]]]];
        [now left|..]; right.
      * now exists (AnyDouble double_default).
      * now exists (AnyDouble double_default).
      * now exists (AnyDouble double_default).
      * now exists (AnyVector3 g).
      * now exists (AnyVector3 g).
    + intros [-> | (v & Hv)]; [now left|]. revert Hv.
      unfold SetParam. key_cases; simpl; intuition congruence.
Qed.
End Claims.

(** *** The claims on the example engine *)

Lemma SetParam_type_mismatch_witness :
  @SetParam Demo.integers Demo.tree Demo.engine "max_step_size"
    (@AnyInt Demo.integers 5%Z) Demo.world = (false, Demo.world) /\
  @SetParam Demo.integers Demo.tree Demo.engine "gravity"
    (@AnyMsgVector3d Demo.integers
       (@Build_MsgVector3d Demo.integers 0%Z 0%Z (-9)%Z))
    Demo.world = (false, Demo.world) /\
  @SetParam Demo.integers Demo.tree Demo.engine "magnetic_field"
    (@AnyInt Demo.integers 5%Z) Demo.world
  = (false,
     @magnetic_field_element Demo.integers Demo.tree Demo.engine
       Demo.world) /\
  (@sdf Demo.integers Demo.tree unit Demo.world
   : gmap string Demo.SdfValue) !! "magnetic_field" = None /\
  (@sdf Demo.integers Demo.tree unit
     (@magnetic_field_element Demo.integers Demo.tree Demo.engine
        Demo.world)
   : gmap string Demo.SdfValue) !! "magnetic_field"
  = Some Demo.SdfDefault.
Proof.
  split; [|split; [|split]].
  - apply (proj1 (@SetParam_type_mismatch Demo.integers Demo.tree
                    Demo.engine "max_step_size" _ Demo.world)).
    + left. reflexivity.
    + intros d. discriminate.
  - apply (proj1 (proj2 (@SetParam_type_mismatch Demo.integers Demo.tree
                           Demo.engine "gravity" _ Demo.world))).
    + reflexivity.
    + intros w. discriminate.
  - refine (proj1 (proj2 (proj2 (@SetParam_type_mismatch Demo.integers
                                   Demo.tree Demo.engine "magnetic_field"
                                   _ Demo.world)) eq_refl _)).
    intros w. discriminate.
  - split; reflexivity.
Defined.

Lemma legacy_decode_order_witness :
  @decode Demo.integers
    (@Build_NamedParam Demo.integers "max_contacts" None None (Some 20%Z)
       (Some "20") None None None)
  = Some (@AnyInt Demo.integers 20%Z).
Proof.
  refine (proj2 (@legacy_decode_order Demo.integers _ _) 20%Z "20" _ _ _);
    reflexivity.
Defined.

Lemma SetParam_rejects_type_and_unknown_witness :
  @SetParam Demo.integers Demo.tree Demo.engine "max_contacts"
    (@AnyInt Demo.integers 20%Z) Demo.world = (false, Demo.world).
Proof.
  apply (proj2 (@SetParam_rejects_type_and_unknown Demo.integers Demo.tree
                  Demo.engine _ Demo.world)).
  simpl. intros Hin.
  repeat (destruct Hin as [Hin|Hin]; [discriminate Hin|]).
  exact Hin.
Defined.

Lemma OnPhysicsMsg_dispatches_in_order_witness :
  @maxStepSize Demo.integers Demo.tree unit
    (@OnPhysicsMsg Demo.integers Demo.tree Demo.engine
       [@double_entry Demo.integers "max_step_size" 5%Z;
        @double_entry Demo.integers "magnetic_field" 9%Z;
        @double_entry Demo.integers "real_time_factor" 2%Z] Demo.world)
  = 5%Z /\
  @targetRealTimeFactor Demo.integers Demo.tree unit
    (@OnPhysicsMsg Demo.integers Demo.tree Demo.engine
       [@double_entry Demo.integers "max_step_size" 5%Z;
        @double_entry Demo.integers "magnetic_field" 9%Z;
        @double_entry Demo.integers "real_time_factor" 2%Z] Demo.world)
  = 2%Z /\
  @OnPhysicsMsg Demo.integers Demo.tree Demo.engine
    [@double_entry Demo.integers "max_step_size" 5%Z;
     @empty_entry Demo.integers "gravity";
     @double_entry Demo.integers "real_time_factor" 2%Z] Demo.world
  = @SetTargetRealTimeFactor Demo.integers Demo.tree Demo.engine 2%Z
      (@SetMaxStepSize Demo.integers Demo.tree Demo.engine 5%Z Demo.world).
Proof.
  destruct (@OnPhysicsMsg_dispatches_in_order Demo.integers Demo.tree
              Demo.engine)
    as (_ & _ & _ & _ & _ & _ & _ & Hthree & Hpassed).
  destruct (Hthree (@double_entry Demo.integers "magnetic_field" 9%Z)
              5%Z 2%Z Demo.world) as (_ & Hstep & Hfactor & _).
  - right. exists (@AnyDouble Demo.integers 9%Z). split; reflexivity.
  - split; [exact Hstep|]. split; [exact Hfactor|].
    apply Hpassed. reflexivity.
Defined.

Lemma GetParam_known_keys_witness :
  @GetParam Demo.integers Demo.tree Demo.engine "max_contacts"
    (@AnyEmpty Demo.integers) Demo.world = (false, @AnyEmpty Demo.integers).
Proof.
  destruct (@GetParam_known_keys Demo.integers Demo.tree Demo.engine
              (@AnyEmpty Demo.integers) Demo.world)
    as (_ & _ & _ & _ & _ & _ & Hother & _).
  apply Hother. simpl. intros Hin.
  repeat (destruct Hin as [Hin|Hin]; [discriminate Hin|]).
  exact Hin.
Defined.

End PhysicsFacts.

(** ** More on the parameter handles *)

Module ParamMore.
Import Param.

(** *** Pieces and spaces *)

Lemma split_length (s : string) :
  List.length (split s) = S (count_spaces s).
Proof.
  induction s as [|c r IH]; simpl; [reflexivity|].
  destruct (Ascii.eqb c " "); simpl; [now rewrite IH|].
  destruct (split r); simpl in *; [discriminate | exact IH].
Qed.

(** X14. The pieces a vector accessor works on are the runs of the string
    form between its spaces: no piece has a space, there is one piece more
    than there are spaces, and the pieces joined by single spaces are the
    string form again. *)
Theorem split_pieces (s : string) :
  join (split s) = s /\
  Forall (fun piece => count_spaces piece = 0%nat) (split s) /\
  List.length (split s) = S (count_spaces s).
Proof.
  split; [|split; [|apply split_length]].
  - induction s as [|c r IH]; simpl; [reflexivity|].
    destruct (Ascii.eqb_spec c " ") as [->|Hc].
    + pose proof (split_length r) as Hlen. simpl.
      destruct (split r) as [|piece pieces]; [discriminate|].
      now rewrite IH.
    + pose proof (split_length r) as Hlen.
      destruct (split r) as [|piece pieces]; [discriminate|].
      simpl in *. destruct pieces; simpl in *; now rewrite <- IH.
  - induction s as [|c r IH]; simpl; [repeat constructor|].
    destruct (Ascii.eqb c " ") eqn:Hc; [constructor; [reflexivity | exact IH]|].
    destruct (split r) as [|piece pieces]; [repeat constructor; simpl|].
    + now rewrite Hc.
    + inversion IH; subst. constructor; [simpl; now rewrite Hc | assumption].
Qed.

Lemma retained_lt_inv pieces :
  (List.length (retained pieces) < List.length pieces)%nat ->
  In EmptyString pieces.
Proof.
  induction pieces as [|first rest IH]; simpl; [lia|].
  destruct (String.eqb_spec first EmptyString) as [->|Hne]; simpl.
  - intros _. now left.
  - intros Hlt. right. apply IH. lia.
Qed.

Section Loop.
Context {A : Type} (cast : string -> option A).

(** The piece reported is the first one the loop does not get past, and
    the index reported is its position among the pieces. *)
Lemma parse_pieces_inl pieces : forall i0 elements piece i,
  parse_pieces cast pieces i0 elements = inl (piece, i) ->
  exists j, i = (i0 + j)%nat /\ pieces !! j = Some piece /\
            piece <> EmptyString /\ cast (c_str piece) = None /\
            forall k q, (k < j)%nat -> pieces !! k = Some q ->
                        passes cast q.
Proof.
  induction pieces as [|first rest IH]; intros i0 elements piece i;
    simpl; [discriminate|].
  destruct (String.eqb_spec first EmptyString) as [->|Hne].
  - intros Hloop. destruct (IH _ _ _ _ Hloop) as (j & -> & Hj & Hp & Hc & Hk).
    exists (S j). split; [lia|]. do 3 (split; [assumption|]).
    intros [|k] q Hlt Hq; simpl in Hq.
    + injection Hq as <-. now left.
    + apply (Hk k); [lia | exact Hq].
  - destruct (cast (c_str first)) as [e|] eqn:Hcast.
    + intros Hloop.
      destruct (IH _ _ _ _ Hloop) as (j & -> & Hj & Hp & Hc & Hk).
      exists (S j). split; [lia|]. do 3 (split; [assumption|]).
      intros [|k] q Hlt Hq; simpl in Hq.
      * injection Hq as <-. right. rewrite Hcast. eauto.
      * apply (Hk k); [lia | exact Hq].
    + intros [= <- <-]. exists 0%nat. split; [lia|].
      do 3 (split; [auto|]). intros k q Hlt. lia.
Qed.

(** The loop completes exactly when it gets past every piece. *)
Lemma parse_pieces_inr pieces : forall i0 elements,
  (exists result, parse_pieces cast pieces i0 elements = inr result)
  <-> (forall q, In q pieces -> passes cast q).
Proof.
  induction pieces as [|first rest IH]; intros i0 elements; simpl.
  - split; [intros _ q [] | eauto].
  - destruct (String.eqb_spec first EmptyString) as [->|Hne].
    + rewrite IH. split.
      * intros Hall q [<-|Hq]; [now left | auto].
      * intros Hall q Hq. auto.
    + destruct (cast (c_str first)) as [e|] eqn:Hcast.
      * rewrite IH. split.
        -- intros Hall q [<-|Hq]; [right; rewrite Hcast; eauto | auto].
        -- intros Hall q Hq. auto.
      * split; [intros (result & Hr); discriminate|].
        intros Hall. destruct (Hall first (or_introl eq_refl)) as [He|Hs].
        -- contradiction.
        -- rewrite Hcast in Hs. destruct Hs as (x & Hx). discriminate.
Qed.
End Loop.

(** Case analysis on the pieces of a short list: empty or not, converted
    or not. *)
Ltac piece_cases :=
  repeat match goal with
         | |- context [String.eqb ?a EmptyString] =>
             destruct (String.eqb_spec a EmptyString)
         | |- context [match ?cast (c_str ?a) with _ => _ end] =>
             destruct (cast (c_str a)) eqn:?
         end.

Section Extras.
Context `{Numeric} (to_s : Payload -> string).

(** X1. On a handle of another tag, a vector accessor returns true for
    exactly the string forms that split into as many pieces as the vector
    has components, each piece non-empty and converted by the lexical
    cast; the vector assigned then holds the converted pieces in order. *)
Theorem vector_get_true_iff :
  (forall p out v, IsVector3 (base p) = false ->
     (Get_Vector3 to_s p out = GetTrue v <->
      exists a b c,
        split (GetAsString to_s p) = [a; b; c] /\
        a <> EmptyString /\ b <> EmptyString /\ c <> EmptyString /\
        lexical_cast_double (c_str a) = Some (v3_x v) /\
        lexical_cast_double (c_str b) = Some (v3_y v) /\
        lexical_cast_double (c_str c) = Some (v3_z v))) /\
  (forall p out v, IsVector2i (base p) = false ->
     (Get_Vector2i to_s p out = GetTrue v <->
      exists a b,
        split (GetAsString to_s p) = [a; b] /\
        a <> EmptyString /\ b <> EmptyString /\
        lexical_cast_int (c_str a) = Some (v2i_x v) /\
        lexical_cast_int (c_str b) = Some (v2i_y v))) /\
  (forall p out v, IsVector2d (base p) = false ->
     (Get_Vector2d to_s p out = GetTrue v <->
      exists a b,
        split (GetAsString to_s p) = [a; b] /\
        a <> EmptyString /\ b <> EmptyString /\
        lexical_cast_double (c_str a) = Some (v2d_x v) /\
        lexical_cast_double (c_str b) = Some (v2d_y v))).
Proof.
  repeat apply conj; intros p out v Htag; split.
  - unfold Get_Vector3, at_index. rewrite Htag.
    destruct (split (GetAsString to_s p)) as [|a [|b [|c [|d rest]]]];
      simpl; try discriminate.
    piece_cases; simpl; try discriminate.
    intros [= <-]. exists a, b, c. simpl. auto 10.
  - intros (a & b & c & Hs & Ha & Hb & Hc & Hx & Hy & Hz). destruct v.
    now apply (ParamFacts.Get_Vector3_well_formed to_s p out a b c).
  - unfold Get_Vector2i, at_index. rewrite Htag.
    destruct (split (GetAsString to_s p)) as [|a [|b [|c rest]]];
      simpl; try discriminate.
    piece_cases; simpl; try discriminate.
    intros [= <-]. exists a, b. simpl. auto 10.
  - intros (a & b & Hs & Ha & Hb & Hx & Hy). destruct v.
    now apply (ParamFacts.Get_Vector2i_well_formed to_s p out a b).
  - unfold Get_Vector2d, at_index. rewrite Htag.
    destruct (split (GetAsString to_s p)) as [|a [|b [|c rest]]];
      simpl; try discriminate.
    piece_cases; simpl; try discriminate.
    intros [= <-]. exists a, b. simpl. auto 10.
  - intros (a & b & Hs & Ha & Hb & Hx & Hy). destruct v.
    now apply (ParamFacts.Get_Vector2d_well_formed to_s p out a b).
Qed.

(** X2. Whenever a vector accessor returns false the caller's vector is
    as it was, components included, the tag is not the accessor's, and
    the report is one of two: the wrong count, when the number of pieces is
    not the arity; or, with the right number of pieces, the first piece
    that is neither empty nor converted, together with its position among
    the pieces. *)
Theorem vector_get_false_cases :
  (forall p out out' err,
     Get_Vector3 to_s p out = GetFalse out' err ->
     IsVector3 (base p) = false /\ out' = out /\
     ((err = WrongPieceCount 3 /\
       List.length (split (GetAsString to_s p)) <> 3%nat) \/
      (exists piece i,
         err = BadNumber piece i /\
         List.length (split (GetAsString to_s p)) = 3%nat /\
         split (GetAsString to_s p) !! i = Some piece /\
         piece <> EmptyString /\ lexical_cast_double (c_str piece) = None /\
         forall k q, (k < i)%nat ->
                     split (GetAsString to_s p) !! k = Some q ->
                     passes lexical_cast_double q))) /\
  (forall p out out' err,
     Get_Vector2i to_s p out = GetFalse out' err ->
     IsVector2i (base p) = false /\ out' = out /\
     ((err = WrongPieceCount 2 /\
       List.length (split (GetAsString to_s p)) <> 2%nat) \/
      (exists piece i,
         err = BadNumber piece i /\
         List.length (split (GetAsString to_s p)) = 2%nat /\
         split (GetAsString to_s p) !! i = Some piece /\
         piece <> EmptyString /\ lexical_cast_int (c_str piece) = None /\
         forall k q, (k < i)%nat ->
                     split (GetAsString to_s p) !! k = Some q ->
                     passes lexical_cast_int q))) /\
  (forall p out out' err,
     Get_Vector2d to_s p out = GetFalse out' err ->
     IsVector2d (base p) = false /\ out' = out /\
     ((err = WrongPieceCount 2 /\
       List.length (split (GetAsString to_s p)) <> 2%nat) \/
      (exists piece i,
         err = BadNumber piece i /\
         List.length (split (GetAsString to_s p)) = 2%nat /\
         split (GetAsString to_s p) !! i = Some piece /\
         piece <> EmptyString /\ lexical_cast_double (c_str piece) = None /\
         forall k q, (k < i)%nat ->
                     split (GetAsString to_s p) !! k = Some q ->
                     passes lexical_cast_double q))).
Proof.
  repeat apply conj.
  - intros p out out' err. unfold Get_Vector3, at_index.
    destruct (IsVector3 (base p)); [destruct (value p); discriminate|].
    destruct (Nat.eqb_spec (List.length (split (GetAsString to_s p))) 3)
      as [Hlen|Hlen]; simpl.
    + destruct (parse_pieces _ _ _ _) as [[piece i]|elements] eqn:Hloop.
      * intros [= <- <-]. do 2 (split; [reflexivity|]). right.
        apply parse_pieces_inl in Hloop
          as (j & -> & Hj & Hp & Hc & Hk).
        exists piece, j. auto 10.
      * repeat (destruct (_ !! _); [|discriminate]). discriminate.
    + intros [= <- <-]. auto.
  - intros p out out' err. unfold Get_Vector2i, at_index.
    destruct (IsVector2i (base p)); [destruct (value p); discriminate|].
    destruct (Nat.eqb_spec (List.length (split (GetAsString to_s p))) 2)
      as [Hlen|Hlen]; simpl.
    + destruct (parse_pieces _ _ _ _) as [[piece i]|elements] eqn:Hloop.
      * intros [= <- <-]. do 2 (split; [reflexivity|]). right.
        apply parse_pieces_inl in Hloop
          as (j & -> & Hj & Hp & Hc & Hk).
        exists piece, j. auto 10.
      * repeat (destruct (_ !! _); [|discriminate]). discriminate.
    + intros [= <- <-]. auto.
  - intros p out out' err. unfold Get_Vector2d, at_index.
    destruct (IsVector2d (base p)); [destruct (value p); discriminate|].
    destruct (Nat.eqb_spec (List.length (split (GetAsString to_s p))) 2)
      as [Hlen|Hlen]; simpl.
    + destruct (parse_pieces _ _ _ _) as [[piece i]|elements] eqn:Hloop.
      * intros [= <- <-]. do 2 (split; [reflexivity|]). right.
        apply parse_pieces_inl in Hloop
          as (j & -> & Hj & Hp & Hc & Hk).
        exists piece, j. auto 10.
      * repeat (destruct (_ !! _); [|discriminate]). discriminate.
    + intros [= <- <-]. auto.
Qed.

(** X3. On a handle of another tag, a vector accessor reads past the end
    of its elements for exactly the string forms that have the right number
    of pieces, at least one of them empty, and no piece that fails to
    convert; the first index read out of range is the number of non-empty
    pieces. With no empty piece every read is in range. *)
Theorem vector_get_undefined_iff :
  (forall p out u, IsVector3 (base p) = false ->
     (Get_Vector3 to_s p out = Undef u <->
      List.length (split (GetAsString to_s p)) = 3%nat /\
      In EmptyString (split (GetAsString to_s p)) /\
      (forall q, In q (split (GetAsString to_s p)) ->
                 passes lexical_cast_double q) /\
      u = OutOfRange
            (List.length (retained (split (GetAsString to_s p)))))) /\
  (forall p out u, IsVector2i (base p) = false ->
     (Get_Vector2i to_s p out = Undef u <->
      List.length (split (GetAsString to_s p)) = 2%nat /\
      In EmptyString (split (GetAsString to_s p)) /\
      (forall q, In q (split (GetAsString to_s p)) ->
                 passes lexical_cast_int q) /\
      u = OutOfRange
            (List.length (retained (split (GetAsString to_s p)))))) /\
  (forall p out u, IsVector2d (base p) = false ->
     (Get_Vector2d to_s p out = Undef u <->
      List.length (split (GetAsString to_s p)) = 2%nat /\
      In EmptyString (split (GetAsString to_s p)) /\
      (forall q, In q (split (GetAsString to_s p)) ->
                 passes lexical_cast_double q) /\
      u = OutOfRange
            (List.length (retained (split (GetAsString to_s p)))))).
Proof.
  repeat apply conj.
  - intros p out u Htag. unfold Get_Vector3, at_index. rewrite Htag.
    destruct (Nat.eqb_spec (List.length (split (GetAsString to_s p))) 3)
      as [Hlen|Hlen]; simpl;
      [|split; [discriminate | intros (Hc & _); contradiction]].
    destruct (parse_pieces _ _ _ _) as [[piece i]|elements] eqn:Hloop.
    + split; [discriminate|]. intros (_ & _ & Hall & _).
      apply parse_pieces_inr with (i0 := 0%nat) (elements := [])
        in Hall as (result & Hr).
      rewrite Hr in Hloop. discriminate.
    + pose proof (ParamFacts.parse_pieces_length _ _ _ _ _ Hloop) as Hn.
      simpl in Hn. split.
      * intros Hu. split; [exact Hlen|].
        assert (Hall : forall q, In q (split (GetAsString to_s p)) ->
                                 passes lexical_cast_double q)
          by (apply (proj1 (parse_pieces_inr lexical_cast_double _ 0%nat []));
              eauto).
        rewrite <- Hn.
        destruct elements as [|x [|y [|z more]]]; simpl in *;
          try discriminate; injection Hu as <-;
          (split; [apply retained_lt_inv; lia | now split]).
      * intros (_ & Hin & _ & ->). apply ParamFacts.retained_lt in Hin.
        rewrite <- Hn.
        destruct elements as [|x [|y [|z more]]]; simpl in *;
          solve [reflexivity | lia].
  - intros p out u Htag. unfold Get_Vector2i, at_index. rewrite Htag.
    destruct (Nat.eqb_spec (List.length (split (GetAsString to_s p))) 2)
      as [Hlen|Hlen]; simpl;
      [|split; [discriminate | intros (Hc & _); contradiction]].
    destruct (parse_pieces _ _ _ _) as [[piece i]|elements] eqn:Hloop.
    + split; [discriminate|]. intros (_ & _ & Hall & _).
      apply parse_pieces_inr with (i0 := 0%nat) (elements := [])
        in Hall as (result & Hr).
      rewrite Hr in Hloop. discriminate.
    + pose proof (ParamFacts.parse_pieces_length _ _ _ _ _ Hloop) as Hn.
      simpl in Hn. split.
      * intros Hu. split; [exact Hlen|].
        assert (Hall : forall q, In q (split (GetAsString to_s p)) ->
                                 passes lexical_cast_int q)
          by (apply (proj1 (parse_pieces_inr lexical_cast_int _ 0%nat []));
              eauto).
        rewrite <- Hn.
        destruct elements as [|x [|y more]]; simpl in *;
          try discriminate; injection Hu as <-;
          (split; [apply retained_lt_inv; lia | now split]).
      * intros (_ & Hin & _ & ->). apply ParamFacts.retained_lt in Hin.
        rewrite <- Hn.
        destruct elements as [|x [|y more]]; simpl in *;
          solve [reflexivity | lia].
  - intros p out u Htag. unfold Get_Vector2d, at_index. rewrite Htag.
    destruct (Nat.eqb_spec (List.length (split (GetAsString to_s p))) 2)
      as [Hlen|Hlen]; simpl;
      [|split; [discriminate | intros (Hc & _); contradiction]].
    destruct (parse_pieces _ _ _ _) as [[piece i]|elements] eqn:Hloop.
    + split; [discriminate|]. intros (_ & _ & Hall & _).
      apply parse_pieces_inr with (i0 := 0%nat) (elements := [])
        in Hall as (result & Hr).
      rewrite Hr in Hloop. discriminate.
    + pose proof (ParamFacts.parse_pieces_length _ _ _ _ _ Hloop) as Hn.
      simpl in Hn. split.
      * intros Hu. split; [exact Hlen|].
        assert (Hall : forall q, In q (split (GetAsString to_s p)) ->
                                 passes lexical_cast_double q)
          by (apply (proj1 (parse_pieces_inr lexical_cast_double _ 0%nat []));
              eauto).
        rewrite <- Hn.
        destruct elements as [|x [|y more]]; simpl in *;
          try discriminate; injection Hu as <-;
          (split; [apply retained_lt_inv; lia | now split]).
      * intros (_ & Hin & _ & ->). apply ParamFacts.retained_lt in Hin.
        rewrite <- Hn.
        destruct elements as [|x [|y more]]; simpl in *;
          solve [reflexivity | lia].
Qed.

(** X4. On a handle of another tag, the wrong-count failure depends on
    the number of spaces of the string form and on nothing else: it is
    returned exactly when that number is not the arity less one, whatever
    stands between the spaces. *)
Theorem vector_get_wrong_count_spaces :
  (forall p out, IsVector3 (base p) = false ->
     (Get_Vector3 to_s p out = GetFalse out (WrongPieceCount 3)
      <-> count_spaces (GetAsString to_s p) <> 2%nat)) /\
  (forall p out, IsVector2i (base p) = false ->
     (Get_Vector2i to_s p out = GetFalse out (WrongPieceCount 2)
      <-> count_spaces (GetAsString to_s p) <> 1%nat)) /\
  (forall p out, IsVector2d (base p) = false ->
     (Get_Vector2d to_s p out = GetFalse out (WrongPieceCount 2)
      <-> count_spaces (GetAsString to_s p) <> 1%nat)).
Proof.
  repeat apply conj; intros p out Htag.
  - rewrite (ParamFacts.Get_Vector3_wrong_count to_s p out Htag),
      split_length. lia.
  - rewrite (ParamFacts.Get_Vector2i_wrong_count to_s p out Htag),
      split_length. lia.
  - rewrite (ParamFacts.Get_Vector2d_wrong_count to_s p out Htag),
      split_length. lia.
Qed.

(** X5. The tags are pairwise different: of the fourteen tag predicates at
    most one holds of a handle, and so, whatever the object, at most one of
    the eleven scalar accessors returns true on it. *)
Theorem scalar_gets_exclusive (p : ParamObj)
    (b : bool) (i u : Z) (f : float) (d : double) (c : ascii) (s : string)
    (q : Quaternion) (po : Pose) (co : Color) (t : Time) :
  (how_many
     [ IsBool (base p); IsInt (base p); IsUInt (base p); IsFloat (base p);
       IsDouble (base p); IsChar (base p); IsStr (base p);
       IsVector3 (base p); IsVector2i (base p); IsVector2d (base p);
       IsQuaternion (base p); IsPose (base p); IsColor (base p);
       IsTime (base p) ] <= 1)%nat /\
  (how_many
     [ returned_true (Get_bool p b); returned_true (Get_int p i);
       returned_true (Get_uint p u); returned_true (Get_float p f);
       returned_true (Get_double p d); returned_true (Get_char p c);
       returned_true (Get_string p s); returned_true (Get_Quaternion p q);
       returned_true (Get_Pose p po); returned_true (Get_Color p co);
       returned_true (Get_Time p t) ] <= 1)%nat.
Proof.
  unfold Get_bool, Get_int, Get_uint, Get_float, Get_double, Get_char,
    Get_string, Get_Quaternion, Get_Pose, Get_Color, Get_Time.
  unfold IsBool, IsInt, IsUInt, IsFloat, IsDouble, IsChar, IsStr, IsVector3,
    IsVector2i, IsVector2d, IsQuaternion, IsPose, IsColor, IsTime,
    GetTypeName.
  repeat match goal with
         | |- context [String.eqb (typeName (base p)) ?tag] =>
             destruct (String.eqb_spec (typeName (base p)) tag) as [Htag|_];
               [rewrite Htag; clear Htag; split;
                  [vm_compute; lia
                  | destruct (value p); vm_compute; lia]|]
         end.
  split; vm_compute; lia.
Qed.

End Extras.

(** *** The properties on examples *)

Lemma vector_get_true_iff_witness :
  @Get_Vector2i Demo.integers Demo.no_output
    (@ParamT_string Demo.integers "size" "640 480") (Build_Vector2i 0 0)
  = GetTrue (Build_Vector2i 640 480).
Proof.
  destruct (@vector_get_true_iff Demo.integers Demo.no_output)
    as (_ & H2 & _).
  apply (proj2 (H2 (@ParamT_string Demo.integers "size" "640 480")
                   (Build_Vector2i 0 0) (Build_Vector2i 640 480) eq_refl)).
  exists "640", "480".
  split; [reflexivity|]. split; [discriminate|]. split; [discriminate|].
  split; reflexivity.
Defined.

Lemma vector_get_false_cases_witness :
  exists piece i,
    split "1 x 3" !! i = Some piece /\
    @lexical_cast_double Demo.integers (c_str piece) = None.
Proof.
  destruct (@vector_get_false_cases Demo.integers Demo.no_output)
    as (H3 & _).
  destruct (H3 (@ParamT_string Demo.integers "gravity" "1 x 3") Demo.origin
              Demo.origin (BadNumber "x" 1) eq_refl)
    as (_ & _ & [(Hc & _) | (piece & i & _ & _ & Hi & _ & Hcast & _)]).
  - discriminate Hc.
  - exists piece, i. split; assumption.
Defined.

Lemma vector_get_undefined_iff_witness :
  @Get_Vector3 Demo.integers Demo.no_output
    (@ParamT_string Demo.integers "gravity" " 1 2") Demo.origin
  = Undef (OutOfRange 2).
Proof.
  destruct (@vector_get_undefined_iff Demo.integers Demo.no_output)
    as (H3 & _).
  apply (proj2 (H3 (@ParamT_string Demo.integers "gravity" " 1 2")
                   Demo.origin (OutOfRange 2) eq_refl)).
  split; [reflexivity|]. split; [left; reflexivity|].
  split; [|reflexivity].
  intros q [<-|[<-|[<-|[]]]].
  - left. reflexivity.
  - right. exists 1%Z. reflexivity.
  - right. exists 2%Z. reflexivity.
Defined.

Lemma vector_get_wrong_count_spaces_witness :
  @Get_Vector3 Demo.integers Demo.no_output
    (@ParamT_string Demo.integers "gravity" "1 2 3 4") Demo.origin
  = GetFalse Demo.origin (WrongPieceCount 3).
Proof.
  destruct (@vector_get_wrong_count_spaces Demo.integers Demo.no_output)
    as (H3 & _).
  apply (proj2 (H3 (@ParamT_string Demo.integers "gravity" "1 2 3 4")
                   Demo.origin eq_refl)).
  simpl. discriminate.
Defined.

End ParamMore.

(** ** More on the parameter interface of the engine *)

Module PhysicsMore.
Import Physics.

(** Case analysis on the comparisons of a key with string constants. *)
Ltac eqb_cases :=
  repeat match goal with
         | |- context [String.eqb ?k ?s] =>
             destruct (String.eqb_spec k s); subst
         end.

Section Messages.
Context `{Backend}.

(** No entry of a message decodes to a [math::Vector3]. *)
Lemma decode_not_Vector3 (p : NamedParam) w :
  decode p <> Some (AnyVector3 w).
Proof.
  unfold decode. destruct (type p) as [[]|]; try discriminate.
  destruct (double_value p), (int_value p), (string_value p), (vector3d p),
    (bool_value p), (float_value p); discriminate.
Qed.

(** With a value that is no [math::Vector3], [SetParam] leaves the engine
    that [apply_pair] gives. *)
Lemma SetParam_no_Vector3 key (v : any) e :
  (forall w, v <> AnyVector3 w) ->
  snd (SetParam key v e) = apply_pair e (key, v).
Proof.
  intros Hv. unfold SetParam, with_cast, apply_pair.
  destruct v as [| | | | | | |w|]; simpl;
    try (eqb_cases; simpl; congruence).
  now destruct (Hv w).
Qed.

Lemma OnPhysicsMsg_cons_pair p rest e :
  OnPhysicsMsg (p :: rest) e
  = OnPhysicsMsg rest
      match decode p with
      | Some v => apply_pair e (name p, v)
      | None => e
      end.
Proof.
  simpl. destruct (decode p) as [v|] eqn:Hdec; [|reflexivity].
  rewrite SetParam_no_Vector3; [reflexivity|].
  intros w ->. now apply decode_not_Vector3 in Hdec.
Qed.

(** [apply_pair] sets at most the double member of its key. *)
Lemma apply_pair_members e k (v : any) :
  derived (apply_pair e (k, v)) = derived e /\
  (k <> "max_step_size" ->
   maxStepSize (apply_pair e (k, v)) = maxStepSize e) /\
  (k <> "real_time_update_rate" ->
   realTimeUpdateRate (apply_pair e (k, v)) = realTimeUpdateRate e) /\
  (k <> "real_time_factor" ->
   targetRealTimeFactor (apply_pair e (k, v)) = targetRealTimeFactor e).
Proof.
  unfold apply_pair. simpl.
  destruct (String.eqb_spec k "magnetic_field") as [->|Hk].
  - destruct object_first; simpl; repeat split; reflexivity.
  - destruct v; simpl; try (repeat split; reflexivity).
    eqb_cases; simpl; repeat split; congruence.
Qed.

(** A pair whose value is no double changes no member. *)
Lemma apply_pair_no_double e k (v : any) :
  (forall d, v <> AnyDouble d) ->
  same_members e (apply_pair e (k, v)) /\
  (k <> "magnetic_field" -> apply_pair e (k, v) = e) /\
  (sdf (apply_pair e (k, v)) = sdf e \/
   sdf (apply_pair e (k, v)) = Element_GetElement "magnetic_field" (sdf e)).
Proof.
  intros Hv. unfold apply_pair, same_members. simpl.
  destruct (String.eqb_spec k "magnetic_field") as [->|Hk].
  - destruct object_first; simpl; repeat split; auto; congruence.
  - destruct v; simpl; try (repeat split; auto; fail).
    now destruct (Hv d).
Qed.

(** A value holds a [math::Vector3] or it does not. *)
Lemma classic_vector (v : any) :
  (exists w, v = AnyVector3 w) \/ (forall w, v <> AnyVector3 w).
Proof. destruct v; eauto; right; discriminate. Qed.
End Messages.

Section Extras.
Context `{Backend}.

(** X6. [SetParam] returns true in exactly two cases: the key is
    max_step_size, real_time_update_rate or real_time_factor and the value
    holds a double; or the key is gravity or magnetic_field and the value
    holds a [math::Vector3]. *)
Theorem SetParam_true_iff key (v : any) e :
  fst (SetParam key v e) = true <->
  ((key = "max_step_size" \/ key = "real_time_update_rate" \/
    key = "real_time_factor") /\ exists d, v = AnyDouble d) \/
  ((key = "gravity" \/ key = "magnetic_field") /\
   exists w, v = AnyVector3 w).
Proof.
  unfold SetParam, with_cast. split.
  - eqb_cases; simpl; try discriminate;
      destruct v; simpl; try discriminate; eauto 10.
  - intros [(Hkey & d & ->) | (Hkey & w & ->)].
    + destruct Hkey as [-> | [-> | ->]]; reflexivity.
    + destruct Hkey as [-> | ->]; reflexivity.
Qed.

(** X7. What is set is what is got: after [SetParam] with one of the three
    double keys and a double, [GetParam] with that key gives the double;
    and after [SetParam] with magnetic_field and a vector, [GetParam] gives
    the vector, provided the description tree returns the vector that was
    set on an element. *)
Theorem SetParam_then_GetParam :
  (forall key d out e,
     key = "max_step_size" \/ key = "real_time_update_rate" \/
     key = "real_time_factor" ->
     GetParam key out (snd (SetParam key (AnyDouble d) e))
     = (true, AnyDouble d)) /\
  ((forall n v t, Element_Get_Vector3 n (Element_Set_Vector3 n v t) = v) ->
   forall v out e,
     GetParam "magnetic_field" out
       (snd (SetParam "magnetic_field" (AnyVector3 v) e))
     = (true, AnyVector3 v)).
Proof.
  split.
  - intros key d out e [-> | [-> | ->]]; reflexivity.
  - intros Hlaw v out e. unfold GetParam, SetParam. simpl.
    now rewrite Hlaw.
Qed.

(** X8. [SetParam] with a key other than gravity never touches the state
    of the concrete engine, and changes none of the three double members
    but the one of its key: [GetParam] with another of the three double
    keys gives the same before and after. *)
Theorem SetParam_frame key (v : any) e :
  key <> "gravity" ->
  derived (snd (SetParam key v e)) = derived e /\
  (forall other out,
     other = "max_step_size" \/ other = "real_time_update_rate" \/
     other = "real_time_factor" ->
     other <> key ->
     GetParam other out (snd (SetParam key v e)) = GetParam other out e).
Proof.
  intros Hkey. unfold SetParam, with_cast. split.
  - eqb_cases; try reflexivity; try congruence;
      destruct v; try destruct object_first; reflexivity.
  - intros other out Hother Hne.
    eqb_cases; try reflexivity; try congruence;
      destruct v; try destruct object_first; simpl; try reflexivity;
      destruct Hother as [-> | [-> | ->]]; try congruence; reflexivity.
Qed.

(** X9. The value [GetParam] assigns for a key is accepted by [SetParam]
    for that key, for each of the five keys that can be set; with a key
    other than gravity, setting it leaves the three double members and the
    state of the concrete engine as they are. The value the overload of
    [GetParam] without out-parameter returns is accepted for no key at all:
    [SetParam] returns false on it, and the members and the state of the
    concrete engine are as before. *)
Theorem GetParam_then_SetParam :
  (forall key out e,
     In key known_keys -> key <> "type" ->
     fst (SetParam key (snd (GetParam key out e)) e) = true) /\
  (forall key out e,
     In key known_keys -> key <> "type" -> key <> "gravity" ->
     same_members e (snd (SetParam key (snd (GetParam key out e)) e))) /\
  (forall key asked e,
     fst (SetParam key (GetParam_any asked e) e) = false /\
     same_members e (snd (SetParam key (GetParam_any asked e) e))).
Proof.
  repeat apply conj.
  - intros key out e Hin Hne. unfold known_keys in Hin. simpl in Hin.
    destruct Hin as [<- | [<- | [<- | [<- | [<- | [<- | []]]]]]];
      solve [congruence | reflexivity].
  - intros key out e Hin Hne Hg. unfold known_keys in Hin. simpl in Hin.
    destruct Hin as [<- | [<- | [<- | [<- | [<- | [<- | []]]]]]];
      solve [congruence | repeat split].
  - intros key asked e.
    assert (Hfalse : fst (SetParam key (GetParam_any asked e) e) = false).
    { unfold SetParam, GetParam_any, with_cast. simpl.
      eqb_cases; reflexivity. }
    split; [exact Hfalse|]. now apply PhysicsFacts.SetParam_false.
Qed.

(** X10. When the [SetParam] that [OnPhysicsMsg] reaches is the one of
    [PhysicsEngine], a message changes the engine through the setters of
    the three double members and, for an entry named magnetic_field,
    through the call of [GetElement] that comes before the cast, and
    through nothing else: [OnPhysicsMsg] is the sequence of [apply_pair] on
    the decoded pairs, in message order. [SetGravity] is never called and
    no vector is ever set on the magnetic field, since the vector of an
    entry is a [msgs::Vector3d] and [SetParam] casts to [math::Vector3];
    the state of the concrete engine is as before. *)
Theorem OnPhysicsMsg_only_doubles :
  (forall msg e, OnPhysicsMsg msg e = foldl apply_pair e (decoded msg)) /\
  (forall (p : NamedParam) w, decode p <> Some (AnyVector3 w)) /\
  (forall msg e, derived (OnPhysicsMsg msg e) = derived e).
Proof.
  assert (Hfold : forall msg e,
             OnPhysicsMsg msg e = foldl apply_pair e (decoded msg)).
  { induction msg as [|p rest IH]; intros e; [reflexivity|].
    rewrite OnPhysicsMsg_cons_pair, IH. unfold decoded. simpl.
    destruct (decode p); reflexivity. }
  split; [exact Hfold|]. split; [apply decode_not_Vector3|].
  intros msg e. rewrite Hfold.
  generalize (decoded msg). intros pairs.
  revert e. induction pairs as [|[k v] rest IH]; intros e; simpl;
    [reflexivity|].
  rewrite IH. apply apply_pair_members.
Qed.

(** X11. An entry that does not decode to a double changes no member and
    nothing of the concrete engine, whatever its name, and leaves the tree
    as it was or, when its name is magnetic_field, as [GetElement] left
    it; with another name the engine as a whole is as before. Such are the
    entries with a discriminator other than DOUBLE_TYPE, even when
    [double_value] is populated, and the entries without discriminator and
    without [double_value]. An entry with the discriminator DOUBLE_TYPE
    and no [double_value] is not passed over: it sets the member of its key
    to the default of the absent field. *)
Theorem OnPhysicsMsg_ineffective_entries :
  (forall p rest e,
     (forall d, decode p <> Some (AnyDouble d)) ->
     name p <> "magnetic_field" ->
     OnPhysicsMsg (p :: rest) e = OnPhysicsMsg rest e) /\
  (forall p e,
     (forall d, decode p <> Some (AnyDouble d)) ->
     same_members e (OnPhysicsMsg [p] e) /\
     (sdf (OnPhysicsMsg [p] e) = sdf e \/
      sdf (OnPhysicsMsg [p] e)
      = Element_GetElement "magnetic_field" (sdf e))) /\
  (forall p t d,
     type p = Some t -> t <> DOUBLE_TYPE -> decode p <> Some (AnyDouble d)) /\
  (forall p d,
     type p = None -> double_value p = None ->
     decode p <> Some (AnyDouble d)) /\
  (forall p e,
     type p = Some DOUBLE_TYPE -> double_value p = None ->
     name p = "max_step_size" ->
     OnPhysicsMsg [p] e = SetMaxStepSize double_default e).
Proof.
  repeat apply conj.
  - intros p rest e Hd Hn. rewrite OnPhysicsMsg_cons_pair.
    destruct (decode p) as [v|]; [|reflexivity].
    assert (Hv : forall d, v <> AnyDouble d)
      by (intros d ->; now destruct (Hd d)).
    now rewrite (proj1 (proj2 (apply_pair_no_double e (name p) v Hv)) Hn).
  - intros p e Hd. rewrite OnPhysicsMsg_cons_pair. simpl.
    destruct (decode p) as [v|].
    + assert (Hv : forall d, v <> AnyDouble d)
        by (intros d ->; now destruct (Hd d)).
      destruct (apply_pair_no_double e (name p) v Hv) as (Hs & _ & Ht).
      split; assumption.
    + unfold same_members. auto.
  - intros p t d Ht Hne. unfold decode. rewrite Ht.
    destruct t; try discriminate. now destruct Hne.
  - intros p d Ht Hd. unfold decode. rewrite Ht, Hd.
    destruct (int_value p), (string_value p), (vector3d p), (bool_value p),
      (float_value p); discriminate.
  - intros p e Ht Hd Hn. simpl. unfold decode. rewrite Ht, Hd, Hn.
    reflexivity.
Qed.

(** Entries of other names leave a double member as it is. *)
Lemma other_names_keep (k : string) post :
  (forall q, In q post -> name q <> k) ->
  forall e,
    (k = "max_step_size" ->
     maxStepSize (OnPhysicsMsg post e) = maxStepSize e) /\
    (k = "real_time_update_rate" ->
     realTimeUpdateRate (OnPhysicsMsg post e) = realTimeUpdateRate e) /\
    (k = "real_time_factor" ->
     targetRealTimeFactor (OnPhysicsMsg post e) = targetRealTimeFactor e).
Proof.
  induction post as [|q rest IH]; intros Hpost e; [now simpl|].
  assert (Hq : name q <> k) by (apply Hpost; now left).
  assert (Hrest : forall q', In q' rest -> name q' <> k)
    by (intros q' Hin; apply Hpost; now right).
  rewrite OnPhysicsMsg_cons_pair.
  destruct (decode q) as [v|]; [|now apply IH].
  destruct (IH Hrest (apply_pair e (name q, v)))
    as (Hstep & Hrate & Hfactor).
  destruct (apply_pair_members e (name q) v) as (_ & Ks & Kr & Kf).
  repeat apply conj; intros ->.
  - rewrite Hstep by reflexivity. now apply Ks.
  - rewrite Hrate by reflexivity. now apply Kr.
  - rewrite Hfactor by reflexivity. now apply Kf.
Qed.

(** X12. The last entry wins: if an entry named max_step_size decodes to a
    double and no later entry of the message has that name, the member is
    that double after the message, whatever the earlier entries and the
    later entries of other names are; and likewise for
    real_time_update_rate and real_time_factor. *)
Theorem last_entry_wins pre p post d e :
  decode p = Some (AnyDouble d) ->
  (forall q, In q post -> name q <> name p) ->
  (name p = "max_step_size" ->
   maxStepSize (OnPhysicsMsg (pre ++ p :: post) e) = d) /\
  (name p = "real_time_update_rate" ->
   realTimeUpdateRate (OnPhysicsMsg (pre ++ p :: post) e) = d) /\
  (name p = "real_time_factor" ->
   targetRealTimeFactor (OnPhysicsMsg (pre ++ p :: post) e) = d).
Proof.
  intros Hdec Hpost.
  rewrite PhysicsFacts.OnPhysicsMsg_app, OnPhysicsMsg_cons_pair, Hdec.
  destruct (other_names_keep (name p) post Hpost
              (apply_pair (OnPhysicsMsg pre e) (name p, AnyDouble d)))
    as (Hstep & Hrate & Hfactor).
  repeat apply conj; intros Hn.
  - rewrite (Hstep Hn). unfold apply_pair. simpl. now rewrite Hn.
  - rewrite (Hrate Hn). unfold apply_pair. simpl. now rewrite Hn.
  - rewrite (Hfactor Hn). unfold apply_pair. simpl. now rewrite Hn.
Qed.

End Extras.

Section Coherence.
Context `{Backend} `{!SdfRead}.

Lemma apply_pair_coherent e kv :
  tree_laws -> coherent e -> coherent (apply_pair e kv).
Proof.
  intros (Hsame & Hother & _ & Hget) (Hm & Hr & Hf).
  unfold apply_pair, coherent.
  destruct (String.eqb_spec (fst kv) "magnetic_field") as [Hk|Hk].
  - destruct object_first; simpl; rewrite ?Hget by discriminate; auto.
  - destruct (snd kv); simpl; auto.
    eqb_cases; simpl;
      rewrite ?Hsame, ?Hother, ?Hget by discriminate; auto.
Qed.

(** X13. The members follow the description tree. When a double that was
    set on an element is the one read from it and setting an element, or
    getting it, leaves the doubles of the other elements alone, the three
    double members agree with the elements of their names after [Load],
    and keep agreeing after every [SetParam] with a key other than gravity
    and after every message. *)
Theorem members_agree_with_tree :
  tree_laws ->
  (forall _sdf e, coherent (Load _sdf e)) /\
  (forall key (v : any) e,
     key <> "gravity" -> coherent e -> coherent (snd (SetParam key v e))) /\
  (forall msg e, coherent e -> coherent (OnPhysicsMsg msg e)) /\
  (forall _sdf msg e, coherent (OnPhysicsMsg msg (Load _sdf e))).
Proof.
  intros Hlaws.
  assert (Hload : forall _sdf e, coherent (Load _sdf e)).
  { intros _sdf e. destruct Hlaws as (_ & _ & _ & Hget).
    unfold coherent, Load. simpl. split; [reflexivity|]. split.
    - rewrite (Hget "real_time_update_rate" "max_step_size"),
        (Hget "real_time_update_rate" "real_time_factor") by discriminate.
      reflexivity.
    - rewrite (Hget "real_time_factor" "max_step_size") by discriminate.
      reflexivity. }
  assert (Hmsg : forall msg e, coherent e -> coherent (OnPhysicsMsg msg e)).
  { induction msg as [|p rest IH]; intros e He; [exact He|].
    rewrite OnPhysicsMsg_cons_pair. apply IH.
    destruct (decode p); auto using apply_pair_coherent. }
  repeat apply conj; auto.
  intros key v e Hkey He.
  destruct (classic_vector v) as [(w & ->) | Hv].
  - destruct Hlaws as (_ & _ & Hvec & Hget). destruct He as (Hm & Hr & Hf).
    unfold SetParam, with_cast, coherent.
    eqb_cases; simpl; try congruence; auto.
    rewrite !Hvec, !Hget by discriminate. auto.
  - rewrite SetParam_no_Vector3 by exact Hv.
    auto using apply_pair_coherent.
Qed.

End Coherence.

(** *** The example tree keeps the laws *)

Lemma demo_vector_law n (v : @Vector3 Demo.integers)
    (t : gmap string Demo.SdfValue) :
  @Element_Get_Vector3 Demo.integers Demo.tree n
    (@Element_Set_Vector3 Demo.integers Demo.tree n v t) = v.
Proof. simpl. now rewrite lookup_insert_eq. Qed.

Lemma demo_tree_laws :
  @tree_laws Demo.integers Demo.tree Demo.tree_read.
Proof.
  unfold tree_laws. simpl. repeat apply conj.
  - intros n d t. now rewrite lookup_insert_eq.
  - intros n m d t Hne. now rewrite lookup_insert_ne.
  - intros n m v t Hne. now rewrite lookup_insert_ne.
  - intros n m t Hne. destruct (t !! m); [reflexivity|].
    now rewrite lookup_insert_ne.
Qed.

(** *** The properties on the example engine *)

Lemma SetParam_then_GetParam_witness :
  @GetParam Demo.integers Demo.tree Demo.engine "real_time_factor"
    (@AnyEmpty Demo.integers)
    (snd (@SetParam Demo.integers Demo.tree Demo.engine "real_time_factor"
            (@AnyDouble Demo.integers 2%Z) Demo.world))
  = (true, @AnyDouble Demo.integers 2%Z) /\
  @GetParam Demo.integers Demo.tree Demo.engine "magnetic_field"
    (@AnyEmpty Demo.integers)
    (snd (@SetParam Demo.integers Demo.tree Demo.engine "magnetic_field"
            (@AnyVector3 Demo.integers
               (@Build_Vector3 Demo.integers 6%Z 23%Z (-42)%Z)) Demo.world))
  = (true, @AnyVector3 Demo.integers
             (@Build_Vector3 Demo.integers 6%Z 23%Z (-42)%Z)).
Proof.
  destruct (@SetParam_then_GetParam Demo.integers Demo.tree Demo.engine)
    as (Hdouble & Hvector).
  split.
  - apply Hdouble. right. right. reflexivity.
  - apply Hvector. exact demo_vector_law.
Defined.

Lemma SetParam_frame_witness :
  @GetParam Demo.integers Demo.tree Demo.engine "real_time_factor"
    (@AnyEmpty Demo.integers)
    (snd (@SetParam Demo.integers Demo.tree Demo.engine "max_step_size"
            (@AnyDouble Demo.integers 5%Z) Demo.world))
  = @GetParam Demo.integers Demo.tree Demo.engine "real_time_factor"
      (@AnyEmpty Demo.integers) Demo.world.
Proof.
  refine (proj2 (@SetParam_frame Demo.integers Demo.tree Demo.engine
                   "max_step_size" _ Demo.world _)
            "real_time_factor" _ _ _).
  - discriminate.
  - right. right. reflexivity.
  - discriminate.
Defined.

Lemma GetParam_then_SetParam_witness :
  fst (@SetParam Demo.integers Demo.tree Demo.engine "gravity"
         (snd (@GetParam Demo.integers Demo.tree Demo.engine "gravity"
                 (@AnyEmpty Demo.integers) Demo.world)) Demo.world) = true /\
  @same_members Demo.integers Demo.tree Demo.engine Demo.world
    (snd (@SetParam Demo.integers Demo.tree Demo.engine "magnetic_field"
            (snd (@GetParam Demo.integers Demo.tree Demo.engine
                    "magnetic_field" (@AnyEmpty Demo.integers) Demo.world))
            Demo.world)).
Proof.
  destruct (@GetParam_then_SetParam Demo.integers Demo.tree Demo.engine)
    as (Hback & Hsame & _).
  split.
  - apply Hback.
    + simpl. do 4 right. left. reflexivity.
    + discriminate.
  - apply Hsame.
    + simpl. do 5 right. left. reflexivity.
    + discriminate.
    + discriminate.
Defined.

Lemma OnPhysicsMsg_ineffective_entries_witness :
  @OnPhysicsMsg Demo.integers Demo.tree Demo.engine
    [@Build_NamedParam Demo.integers "max_step_size" (Some INT_TYPE)
       (Some 5%Z) None None None None None] Demo.world
  = Demo.world /\
  @same_members Demo.integers Demo.tree Demo.engine Demo.world
    (@OnPhysicsMsg Demo.integers Demo.tree Demo.engine
       [@Build_NamedParam Demo.integers "magnetic_field"
          (Some VECTOR3D_TYPE) None None None
          (Some (@Build_MsgVector3d Demo.integers 6%Z 23%Z (-42)%Z))
          None None] Demo.world).
Proof.
  destruct (@OnPhysicsMsg_ineffective_entries Demo.integers Demo.tree
              Demo.engine) as (Hskip & Hmembers & Htyped & _).
  split.
  - apply (Hskip _ [] Demo.world); [|discriminate].
    intros d. apply (Htyped _ INT_TYPE d); [reflexivity | discriminate].
  - apply Hmembers.
    intros d. apply (Htyped _ VECTOR3D_TYPE d); [reflexivity | discriminate].
Defined.

Lemma last_entry_wins_witness :
  @maxStepSize Demo.integers Demo.tree unit
    (@OnPhysicsMsg Demo.integers Demo.tree Demo.engine
       [@double_entry Demo.integers "max_step_size" 3%Z;
        @double_entry Demo.integers "max_step_size" 5%Z;
        @double_entry Demo.integers "real_time_factor" 2%Z] Demo.world)
  = 5%Z.
Proof.
  refine (proj1 (@last_entry_wins Demo.integers Demo.tree Demo.engine
                   [@double_entry Demo.integers "max_step_size" 3%Z]
                   (@double_entry Demo.integers "max_step_size" 5%Z)
                   [@double_entry Demo.integers "real_time_factor" 2%Z]
                   5%Z Demo.world _ _) _).
  - reflexivity.
  - intros q [<-|[]]. discriminate.
  - reflexivity.
Defined.

Lemma members_agree_with_tree_witness :
  @coherent Demo.integers Demo.tree Demo.engine Demo.tree_read
    (@OnPhysicsMsg Demo.integers Demo.tree Demo.engine
       [@double_entry Demo.integers "max_step_size" 5%Z]
       (@Load Demo.integers Demo.tree Demo.engine Demo.tree_read
          Demo.physics_sdf Demo.world)).
Proof.
  destruct (@members_agree_with_tree Demo.integers Demo.tree Demo.engine
              Demo.tree_read demo_tree_laws) as (_ & _ & _ & Hall).
  apply Hall.
Defined.

End PhysicsMore.
